(** * The Xinanjiang (XAJ) rainfall-runoff model of [src/xaj/xaj.py]

    A shallow embedding of the generation step, the two source
    partitioners and the simulation driver, over exact real arithmetic.

    Numbers.  The program computes with NumPy float64 values; here every
    number is a real of the Standard Library and no rounding takes place.
    An operation that has no real result (a division by zero, a fractional
    power of a negative base) raises an exception of type [exn]: plain
    Python floats raise [ZeroDivisionError] there or turn complex, NumPy
    arrays continue with inf or nan.  Either way no real number comes out:
    [Raise] stands for both, and a result [Raise] of a function that works
    on arrays says that the program's values are inf or nan from there on,
    not that the program stops.  Where the program gets from a nan back to
    numbers, the nan is a value [None] instead: in [sources] the
    comparison of a nan with a number is false, and [np.where] takes its
    other array.

    Arrays.  The driver's [if w0_ > wm] and [if runoff < 5] only accept
    arrays of one element, so the batch dimension is one basin and an array
    of shape (batch, 1) is a single real.  [np.where c a b] is the
    conditional [if c then a else b]: NumPy evaluates both arrays, but only
    the selected entry reaches the result.

    Dicts.  [params] and [states] are finite maps with string keys; a
    missing key raises [KeyError].  A value of [states] may be [None]. *)

From Stdlib Require Import Reals Lra Lia ZArith.
From stdpp Require Import base decidable option list strings gmap.

#[local] Open Scope R_scope.

(** ** Exceptions and the error monad *)

Inductive exn : Type :=
| ZeroDivisionError
| ComplexPower
| KeyError (key : string)
| NotImplementedError
| ValueError
| TypeError
| IndexError.

Inductive res (A : Type) : Type :=
| Ok (a : A)
| Raise (e : exn).
Arguments Ok {A} a.
Arguments Raise {A} e.

#[global] Instance res_ret : MRet res := fun A a => Ok a.
#[global] Instance res_bind : MBind res := fun A B f m =>
  match m with
  | Ok a => f a
  | Raise e => Raise e
  end.

(** ** Comparisons of reals as decidable propositions *)

#[global] Instance Rlt_decision (x y : R) : Decision (x < y) := Rlt_dec x y.
#[global] Instance Rle_decision (x y : R) : Decision (x <= y) := Rle_dec x y.
#[global] Instance Rgt_decision (x y : R) : Decision (x > y) := Rgt_dec x y.
#[global] Instance Rge_decision (x y : R) : Decision (x >= y) := Rge_dec x y.
#[global] Instance R_eq_decision : EqDecision R := Req_dec_T.

(** ** Arithmetic primitives *)

(** [x / y] *)
Definition div (x y : R) : res R :=
  if bool_decide (y = 0) then Raise ZeroDivisionError else Ok (x / y).

(** [x ** y]: the real power.  A zero base with a negative exponent is a
    division by zero; a negative base is only defined at an integer
    exponent. *)
Definition power (x y : R) : res R :=
  if bool_decide (0 < x) then Ok (Rpower x y)
  else if bool_decide (x = 0) then
    (if bool_decide (y < 0) then Raise ZeroDivisionError
     else if bool_decide (y = 0) then Ok 1 else Ok 0)
  else if bool_decide (IZR (Int_part y) = y) then Ok (powerRZ x (Int_part y))
  else Raise ComplexPower.

(** [x ** y] on NumPy arrays where the program goes on with the nan of a
    negative base at a fractional exponent: the nan is [None]. *)
Definition power_nan (x y : R) : res (option R) :=
  match power x y with
  | Ok q => Ok (Some q)
  | Raise ComplexPower => Ok None
  | Raise e => Raise e
  end.

(** [np.maximum x y] *)
Definition np_maximum (x y : R) : R := Rmax x y.

(** [np.clip x lo hi], which is [np.minimum hi (np.maximum x lo)] *)
Definition np_clip (x lo hi : R) : R := Rmin hi (Rmax x lo).

(** ** Evapotranspiration and runoff generation *)

(** [calculate_evap], lines 11-33: the three-layer evaporation model. *)
Definition calculate_evap (lm c wu0 wl0 prcp pet : R) : res (R * R * R) :=
  let eu := if bool_decide (wu0 + prcp >= pet) then pet else wu0 + prcp in
  let ed := if bool_decide (wl0 < c * lm) && bool_decide (wl0 < c * (pet - eu))
            then c * (pet - eu) - wl0 else 0 in
  el ← (if bool_decide (wu0 + prcp >= pet) then Ok 0
        else if bool_decide (wl0 >= c * lm) then div ((pet - eu) * wl0) lm
        else if bool_decide (wl0 >= c * (pet - eu)) then Ok (c * (pet - eu))
        else Ok wl0);
  Ok (eu, el, ed).

(** [calculate_prcp_runoff], lines 36-63: runoff [r] of the pervious area
    from the storage-capacity curve, and runoff [r_im] of the impervious
    area. *)
Definition calculate_prcp_runoff (b im wm w0 pe : R) : res (R * R) :=
  wmm ← div (wm * (1 + b)) (1 - im);
  x ← div w0 wm;
  k ← div 1 (1 + b);
  q ← power (1 - x) k;
  let a := wmm * (1 - q) in
  r_cal ← (if bool_decide (pe + a < wmm)
           then y ← div (a + pe) wmm;
                q' ← power (1 - y) (1 + b);
                Ok (pe - (wm - w0) + wm * q')
           else Ok (pe - (wm - w0)));
  let r := np_maximum r_cal 0 in
  let r_im_cal := pe * im in
  let r_im := np_maximum r_im_cal 0 in
  Ok (r, r_im).

(** [calculate_w_storage], lines 66-98: the update of the three soil
    layers.  Its argument [p] is documented as the rainfall; the net
    rainfall [pe] is recomputed inside. *)
Definition calculate_w_storage (um lm dm wu0 wl0 wd0 eu el ed p r : R)
  : R * R * R :=
  let e := eu + el + ed in
  let pe := np_maximum (p - e) 0 in
  let wu := if bool_decide (pe > 0)
            then (if bool_decide (wu0 + pe - r < um) then wu0 + pe - r else um)
            else wu0 - eu in
  let wd := if bool_decide (pe > 0)
            then (if bool_decide (wu0 + wl0 + pe - r > um + lm)
                  then wu0 + wl0 + wd0 + pe - r - um - lm else wd0)
            else wd0 - ed in
  let wl := if bool_decide (pe > 0)
            then wu0 + wl0 + wd0 + pe - r - wu - wd
            else wl0 - el in
  let wu_ := np_clip wu 0 um in
  let wl_ := np_clip wl 0 lm in
  let wd_ := np_clip wd 0 dm in
  (wu_, wl_, wd_).

(** An optional argument whose default [None] is replaced on entry. *)
Definition or_default (o : option R) (d : R) : R :=
  match o with
  | Some v => v
  | None => d
  end.

(** [generation], lines 101-155.  [p_and_e] is one time step of the
    forcing, the pair of rainfall and potential evapotranspiration.  The
    result is [((r, rim, e, pe), (wu, wl, wd))]. *)
Definition generation (p_and_e : R * R) (um lm dm c b im : R)
    (wu0 wl0 wd0 : option R) : res ((R * R * R * R) * (R * R * R)) :=
  let prcp := np_maximum (fst p_and_e) 0 in
  let pet := np_maximum (snd p_and_e) 0 in
  let wm := um + lm + dm in
  let wu0 := or_default wu0 (0.6 * um) in
  let wl0 := or_default wl0 (0.6 * lm) in
  let wd0 := or_default wd0 (0.6 * dm) in
  let w0_ := wu0 + wl0 + wd0 in
  let w0 := if bool_decide (w0_ > wm) then wm else w0_ in
  '(eu, el, ed) ← calculate_evap lm c wu0 wl0 prcp pet;
  let e := eu + el + ed in
  let prcp_difference := prcp - e in
  let pe := np_maximum prcp_difference 0 in
  '(r, rim) ← calculate_prcp_runoff b im wm w0 pe;
  let '(wu, wl, wd) := calculate_w_storage um lm dm wu0 wl0 wd0 eu el ed pe r in
  Ok ((r, rim, e, pe), (wu, wl, wd)).

(** ** Source partitioning, standard method *)

(** [sources], lines 158-206.  The result is [((rs, ri, rg), (fr, s1))].

    When the stored water [fr0 * s0 / fr] exceeds [sm], the power of
    equation 2.84 has a negative base and [au] is nan; the comparison
    [pe + au < ms] is then false, [np.where] takes equation 2.86, and the
    program returns numbers.  A division by the area fraction [fr = 0]
    leaves inf or nan in every returned value but [fr]: this is the result
    [Raise ZeroDivisionError]. *)
Definition sources (pe r sm ex ki kg : R) (s0 fr0 : option R)
  : res ((R * R * R) * (R * R)) :=
  let ms := sm * (1 + ex) in
  let s0 := or_default s0 (0.60 * sm) in
  let fr0 := or_default fr0 0.02 in
  fr ← (if bool_decide (pe < 1e-5) then Ok fr0 else div r pe);
  t ← div (fr0 * s0) fr;
  x ← div t sm;
  k ← div 1 (1 + ex);
  q ← power_nan (1 - x) k;
  rs ← (match q with
        | Some q =>
            let au := ms * (1 - q) in
            if bool_decide (pe + au < ms)
            then t ← div (fr0 * s0) fr;
                 y ← div (pe + au) ms;
                 q' ← power (1 - y) (ex + 1);
                 Ok (fr * (pe + t - sm + sm * q'))
            else t ← div (fr0 * s0) fr;
                 Ok (fr * (pe + t - sm))
        | None =>
            t ← div (fr0 * s0) fr;
            Ok (fr * (pe + t - sm))
        end);
  t ← div (fr0 * s0) fr;
  u ← div (r - rs) fr;
  let s := t + u in
  let ri := ki * s * fr in
  let rg := kg * s * fr in
  let s1 := s * (1 - ki - kg) in
  let rs := np_maximum rs 0 in
  let ri := np_maximum ri 0 in
  let rg := np_maximum rg 0 in
  Ok ((rs, ri, rg), (fr, s1)).

(** ** Source partitioning, sub-stepped method *)

(** [int(x)]: truncation towards zero. *)
Definition py_int (x : R) : Z :=
  if bool_decide (0 <= x) then Int_part x else (- Int_part (- x))%Z.

(** [x % y] on integers; the result has the sign of [y]. *)
Definition int_mod (x y : Z) : res Z :=
  if bool_decide (y = 0%Z) then Raise ZeroDivisionError else Ok (x mod y)%Z.

(** [x % y] on floats; the result has the sign of [y]. *)
Definition float_mod (x y : R) : res R :=
  if bool_decide (y = 0) then Raise ZeroDivisionError
  else Ok (x - y * IZR (Int_part (x / y))).

(** The conversion of the daily outflow coefficients [ki], [kg] to the
    length of the time step, lines 233-243. *)
Definition period_coefficients (ki kg : R) (time_interval_hours : Z)
  : res (R * R) :=
  let hours_per_day := 24%Z in
  residue_temp ← int_mod hours_per_day time_interval_hours;
  let residue_temp := if bool_decide (residue_temp ≠ 0%Z) then 1%Z else residue_temp in
  d ← div (IZR hours_per_day) (IZR time_interval_hours);
  let period_num_1d := (py_int d + residue_temp)%Z in
  k ← div 1 (IZR period_num_1d);
  p ← power (1 - (ki + kg)) k;
  g ← div kg ki;
  kss_period ← div (1 - p) (1 + g);
  kg_period ← div (kss_period * kg) ki;
  Ok (kss_period, kg_period).

(** The number of time steps in a day, lines 234-239, as
    [period_coefficients] computes it on its way when
    [time_interval_hours] is not zero. *)
Definition period_num_1d (time_interval_hours : Z) : Z :=
  let hours_per_day := 24%Z in
  let residue_temp := (hours_per_day `mod` time_interval_hours)%Z in
  let residue_temp := if bool_decide (residue_temp ≠ 0%Z) then 1%Z else residue_temp in
  (py_int (IZR hours_per_day / IZR time_interval_hours) + residue_temp)%Z.

(** The number of slices, lines 255-261.  When [runoff] is a multiple of 5
    the remainder stays the float [0.0], [n] becomes a float and [range(n)]
    later raises a [TypeError]: the second component tells whether [n] is
    an [int]. *)
Definition slice_count (runoff : R) : res (Z * bool) :=
  if bool_decide (runoff < 5) then Ok (1%Z, true)
  else
    residue_temp ← float_mod runoff 5;
    d ← div runoff 5;
    if bool_decide (residue_temp ≠ 0) then Ok ((py_int d + 1)%Z, true)
    else Ok (py_int d, false).

(** The slice update, lines 280-312: from the state [(fr0_d, s0_d)] of the
    previous slice and the area fraction [fr_d] of this one to
    [(rs_j, rss_j, rg_j)] and the state [(fr_d, s_d)], by the formulation
    of the selected book. *)
Definition slice_update (book : string) (sm ex smm : R)
    (pen rn kss_d kg_d fr_d fr0_d s0_d : R) : res ((R * R * R) * (R * R)) :=
  s_d ← div (fr0_d * s0_d) fr_d;
  if bool_decide (book = "ShuiWenYuBao") then
    let ms := smm in
    let s_d := if bool_decide (s_d > sm) then sm else s_d in
    x ← div s_d sm;
    k ← div 1 (1 + ex);
    q ← power (1 - x) k;
    let au := ms * (1 - q) in
    rs_j ← (if bool_decide (pen + au >= ms)
            then Ok ((pen + s_d - sm) * fr_d)
            else y ← div (pen + au) ms;
                 q' ← power (1 - y) (ex + 1);
                 Ok ((pen - sm + s_d + sm * q') * fr_d));
    u ← div (rn - rs_j) fr_d;
    let s_d := s_d + u in
    let rss_j := s_d * kss_d * fr_d in
    let rg_j := s_d * kg_d * fr_d in
    let s_d := s_d * (1 - rss_j + rg_j) in
    Ok ((rs_j, rss_j, rg_j), (fr_d, s_d))
  else
    k ← div 1 ex;
    p ← power (1 - fr_d) k;
    let smmf := smm * (1 - p) in
    smf ← div smmf (1 + ex);
    let s_d := if bool_decide (s_d > smf) then smf else s_d in
    x ← div s_d smf;
    k ← div 1 (1 + ex);
    q ← power (1 - x) k;
    let au := smmf * (1 - q) in
    if bool_decide (pen + au >= smmf) then
      let rs_j := (pen + s_d - smf) * fr_d in
      let rss_j := smf * kss_d * fr_d in
      let rg_j := smf * kg_d * fr_d in
      t ← div (rss_j + rg_j) fr_d;
      let s_d := smf - t in
      Ok ((rs_j, rss_j, rg_j), (fr_d, s_d))
    else
      y ← div (pen + au) smmf;
      q' ← power (1 - y) (ex + 1);
      let rs_j := (pen - smf + s_d + smf * q') * fr_d in
      t ← div rs_j fr_d;
      let rss_j := (pen - t + s_d) * kss_d * fr_d in
      t ← div rs_j fr_d;
      let rg_j := (pen - t + s_d) * kg_d * fr_d in
      t ← div (rs_j + rss_j + rg_j) fr_d;
      let s_d := s_d + pen - t in
      Ok ((rs_j, rss_j, rg_j), (fr_d, s_d)).

(** The body of the loop over the slices, lines 276-312: the area fraction
    [fr_d] of one slice out of [n], then the slice update. *)
Definition sources5mm_slice (book : string) (sm ex smm fr : R) (n : Z)
    (pen rn kss_d kg_d fr0_d s0_d : R) : res ((R * R * R) * (R * R)) :=
  k ← div 1 (IZR n);
  p ← power (1 - fr) k;
  let fr_d := 1 - p in
  slice_update book sm ex smm pen rn kss_d kg_d fr_d fr0_d s0_d.

(** [l[j]] *)
Definition getitem_list (l : list R) (j : nat) : res R :=
  match l !! j with
  | Some v => Ok v
  | None => Raise IndexError
  end.

(** [l[-1]] *)
Definition last_item (l : list R) : res R :=
  match last l with
  | Some v => Ok v
  | None => Raise IndexError
  end.

(** The loop [for j in range(n)], lines 275-319, over the running totals
    [(rs, rss, rg)] and the history lists [s_ds], [fr_ds]. *)
Fixpoint sources5mm_loop (slice : R → R → res ((R * R * R) * (R * R)))
    (js : list nat) (tot : R * R * R) (s_ds fr_ds : list R)
  : res ((R * R * R) * (list R * list R)) :=
  match js with
  | [] => Ok (tot, (s_ds, fr_ds))
  | j :: js' =>
      fr0_d ← getitem_list fr_ds j;
      s0_d ← getitem_list s_ds j;
      '((rs_j, rss_j, rg_j), (fr_d, s_d)) ← slice fr0_d s0_d;
      let '(rs, rss, rg) := tot in
      sources5mm_loop slice js' (rs + rs_j, rss + rss_j, rg + rg_j)
        (s_ds ++ [s_d]) (fr_ds ++ [fr_d])
  end.

(** [sources5mm], lines 209-321.  The result is
    [((rs, rss, rg), (fr_ds[-1], s_ds[-1]))]. *)
Definition sources5mm (pe runoff sm ex ki kg : R) (s0 fr0 : option R)
    (time_interval_hours : Z) (book : string)
  : res ((R * R * R) * (R * R)) :=
  '(kss_period, kg_period) ← period_coefficients ki kg time_interval_hours;
  let smm := sm * (1 + ex) in
  let s0 := or_default s0 (0.60 * sm) in
  let fr0 := or_default fr0 0.02 in
  fr ← (if bool_decide (pe > 1e-5) then div runoff pe else Ok fr0);
  let fr := np_clip fr 0.001 1 in
  '(n, n_is_int) ← slice_count runoff;
  rn ← div runoff (IZR n);
  pen ← div pe (IZR n);
  k ← div 1 (IZR n);
  p ← power (1 - (kss_period + kg_period)) k;
  g ← div kg_period kss_period;
  kss_d ← div (1 - p) (1 + g);
  kg_d ← div (kss_d * kg_period) kss_period;
  if (n_is_int : bool) then
    '(tot, (s_ds, fr_ds)) ←
      sources5mm_loop (sources5mm_slice book sm ex smm fr n pen rn kss_d kg_d)
        (seq 0 (Z.to_nat n)) (0, 0, 0) [s0] [fr0];
    fr_last ← last_item fr_ds;
    s_last ← last_item s_ds;
    Ok (tot, (fr_last, s_last))
  else Raise TypeError.

(** ** The simulation driver *)

(** The argument [uh]: a list of ordinates, or the shape parameter of the
    S-curve. *)
Inductive uh_arg : Type :=
| UhOrdinates (ordinates : list R)
| UhShape (x4 : R).

(** The surface routing method with what it needs: the recession
    coefficient [cs], or the kernel [UH]. *)
Inductive route_method : Type :=
| LinearReservoir (cs : R)
| UnitHydrograph (UH : list R).

(** [d[key]] on a dict *)
Definition getitem {A : Type} (d : gmap string A) (key : string) : res A :=
  match d !! key with
  | Some v => Ok v
  | None => Raise (KeyError key)
  end.

(** [math.ceil] *)
Definition math_ceil (x : R) : Z := (- Int_part (- x))%Z.

(** [signal.convolve] in its default full mode along the time axis: entry
    [n] is the sum of [xs[n-k] * ks[k]], and there are
    [len(xs) + len(ks) - 1] entries. *)
Definition convolve (xs ks : list R) : list R :=
  map (fun n : nat =>
         foldr Rplus 0
           (map (fun k : nat =>
                   match xs !! (n - k)%nat, ks !! k with
                   | Some x, Some h => x * h
                   | _, _ => 0
                   end) (seq 0 (S n))))
      (seq 0 (length xs + length ks - 1)).

(** The initial state read from the argument [states], lines 371-389, in
    the order [(wu0, wl0, wd0, s0, fr0, qs0, qi0, qg0)]. *)
Definition initial_states (states : option (gmap string (option R)))
  : res (option R * option R * option R * option R * option R
         * option R * option R * option R) :=
  match states with
  | None => Ok (None, None, None, None, None, None, None, None)
  | Some d =>
      wu0 ← getitem d "WU0";
      wl0 ← getitem d "WL0";
      wd0 ← getitem d "WD0";
      s0 ← getitem d "S0";
      fr0 ← getitem d "FR0";
      qs0 ← getitem d "QS0";
      qi0 ← getitem d "QI0";
      qg0 ← getitem d "QG0";
      Ok (wu0, wl0, wd0, s0, fr0, qs0, qi0, qg0)
  end.

(** The first loop over the time steps, lines 391-429.  The step [i = 0]
    passes the initial state, a later step passes [*w] and [*S]: the tuple
    [S] returned by a partitioner is [(fr, s)], and the call unpacks it in
    this order onto the parameters [(s0, fr0)].  The arguments [w] and [S]
    here are what the next step passes; the result holds the four lists and
    the last [w] and [S]. *)
Fixpoint xaj_runoff_loop (um lm dm c b im sm ex ki kg : R)
    (source_type source_book : string) (p_and_e : list (R * R))
    (w : option R * option R * option R) (S : option R * option R)
    (out : list R * list R * list R * list R)
  : res ((list R * list R * list R * list R)
         * ((option R * option R * option R) * (option R * option R))) :=
  match p_and_e with
  | [] => Ok (out, (w, S))
  | p_and_e_i :: rest =>
      let '(wu0, wl0, wd0) := w in
      '((r, rim, e, pe), (wu, wl, wd)) ←
        generation p_and_e_i um lm dm c b im wu0 wl0 wd0;
      '((rs, ri, rg), (S_0, S_1)) ←
        (if bool_decide (source_type = "sources")
         then sources pe r sm ex ki kg (fst S) (snd S)
         else if bool_decide (source_type = "sources5mm")
         then sources5mm pe r sm ex ki kg (fst S) (snd S) 24 source_book
         else Raise NotImplementedError);
      let '(runoff_ims_, rss_, ris_, rgs_) := out in
      xaj_runoff_loop um lm dm c b im sm ex ki kg source_type source_book rest
        (Some wu, Some wl, Some wd) (Some S_0, Some S_1)
        (runoff_ims_ ++ [rim], rss_ ++ [rs], ris_ ++ [ri], rgs_ ++ [rg])
  end.

(** The second loop over the time steps, lines 440-463.  [prev] is [None]
    at the step [i = 0] and holds [(qs, qi, qg)] of the step before
    afterwards. *)
Fixpoint xaj_route_loop (method : route_method) (ci cg : R)
    (qs0 qi0 qg0 : option R) (rss_route qs_ ris_ rgs_ : list R)
    (steps : list nat) (prev : option (R * R * R)) (Qs : list R)
  : res (list R) :=
  match steps with
  | [] => Ok Qs
  | i :: rest =>
      '(qs, qi, qg) ←
        match prev with
        | None =>
            qs ← match method with
                 | LinearReservoir cs =>
                     let qs0 := or_default qs0 0.01 in
                     x ← getitem_list rss_route i;
                     Ok (x * (1 - cs) + qs0 * cs)
                 | UnitHydrograph _ => getitem_list qs_ i
                 end;
            let qi0 := or_default qi0 0.01 in
            let qg0 := or_default qg0 0.01 in
            ri ← getitem_list ris_ i;
            rg ← getitem_list rgs_ i;
            Ok (qs, ri * (1 - ci) + qi0 * ci, rg * (1 - cg) + qg0 * cg)
        | Some (qs, qi, qg) =>
            qs ← match method with
                 | LinearReservoir cs =>
                     x ← getitem_list rss_route i;
                     Ok (x * (1 - cs) + qs * cs)
                 | UnitHydrograph _ => getitem_list qs_ i
                 end;
            ri ← getitem_list ris_ i;
            rg ← getitem_list rgs_ i;
            Ok (qs, ri * (1 - ci) + qi * ci, rg * (1 - cg) + qg * cg)
        end;
      let q := qs + qi + qg in
      xaj_route_loop method ci cg qs0 qi0 qg0 rss_route qs_ ris_ rgs_ rest
        (Some (qs, qi, qg)) (Qs ++ [q])
  end.

Section Driver.

(** [s_curves2] is the S-curve of the GR4J model, imported from
    [src/gr4j/gr4j.py]; the driver is parametrised by it. *)
Variable s_curves2 : Z → R → R.

(** The ordinates of the unit hydrograph, lines 361-368. *)
Definition uh_ordinates (uh : uh_arg) : list R :=
  match uh with
  | UhOrdinates l => l
  | UhShape x4 =>
      let nUH := math_ceil (2.0 * x4) in
      map (fun t : nat =>
             s_curves2 (Z.of_nat t) x4 - s_curves2 (Z.of_nat t - 1) x4)
          (seq 1 (Z.to_nat nUH))
  end.

(** [xaj], lines 324-466: the discharge series [Q] of one basin.  A
    [Raise ZeroDivisionError] or [Raise ComplexPower] that comes out of a
    time step stands for inf or nan values there: the program goes on with
    them and its discharges are nan from that time step on, where the
    model stops. *)
Definition xaj (p_and_e : list (R * R)) (params : gmap string R)
    (states : option (gmap string (option R))) (uh : option uh_arg)
    (source_type source_book : string) : res (list R) :=
  b ← getitem params "B";
  im ← getitem params "IM";
  um ← getitem params "UM";
  lm ← getitem params "LM";
  dm ← getitem params "DM";
  c ← getitem params "C";
  sm ← getitem params "SM";
  ex ← getitem params "EX";
  ki ← getitem params "KI";
  kg ← getitem params "KG";
  ci ← getitem params "CI";
  cg ← getitem params "CG";
  method ← match uh with
           | None => cs ← getitem params "CS"; Ok (LinearReservoir cs)
           | Some u => Ok (UnitHydrograph (uh_ordinates u))
           end;
  '(wu0, wl0, wd0, s0, fr0, qs0, qi0, qg0) ← initial_states states;
  '((runoff_ims_, rss_, ris_, rgs_), _) ←
    xaj_runoff_loop um lm dm c b im sm ex ki kg source_type source_book
      p_and_e (wu0, wl0, wd0) (s0, fr0) ([], [], [], []);
  if bool_decide (runoff_ims_ = []) then Raise ValueError
  else
    let rss_route := zip_with Rplus runoff_ims_ rss_ in
    let qs_ := match method with
               | UnitHydrograph UH => convolve rss_route UH
               | LinearReservoir _ => []
               end in
    xaj_route_loop method ci cg qs0 qi0 qg0 rss_route qs_ ris_ rgs_
      (seq 0 (length p_and_e)) None [].

End Driver.

(** ** The specification's single-slice partitioner *)

(** The sub-stepped partitioner without any slicing, as the specification
    words its limit of one slice: the coefficients of the time step, the
    clipped area fraction, and a single slice update with the full [pe] and
    [runoff]. *)
Definition sources5mm_single (pe runoff sm ex ki kg : R) (s0 fr0 : option R)
    (time_interval_hours : Z) (book : string)
  : res ((R * R * R) * (R * R)) :=
  '(kss_period, kg_period) ← period_coefficients ki kg time_interval_hours;
  let smm := sm * (1 + ex) in
  let s0 := or_default s0 (0.6 * sm) in
  let fr0 := or_default fr0 0.02 in
  fr ← (if bool_decide (pe > 1e-5) then div runoff pe else Ok fr0);
  let fr := np_clip fr 0.001 1 in
  slice_update book sm ex smm pe runoff kss_period kg_period fr fr0 s0.

(** ** Predicates and data of the statements *)

(** The mapping [params] holds the twelve parameters that the driver reads
    in every run. *)
Definition has_params (params : gmap string R)
    (b im um lm dm c sm ex ki kg ci cg : R) : Prop :=
  params !! "B" = Some b ∧ params !! "IM" = Some im
  ∧ params !! "UM" = Some um ∧ params !! "LM" = Some lm
  ∧ params !! "DM" = Some dm ∧ params !! "C" = Some c
  ∧ params !! "SM" = Some sm ∧ params !! "EX" = Some ex
  ∧ params !! "KI" = Some ki ∧ params !! "KG" = Some kg
  ∧ params !! "CI" = Some ci ∧ params !! "CG" = Some cg.

(** The parameter set of the end-to-end scenario of the specification. *)
Definition example_params : gmap string R :=
  list_to_map
    [("UM", 20); ("LM", 80); ("DM", 60); ("C", 0.15); ("B", 0.3);
     ("IM", 0.02); ("SM", 35); ("EX", 1.2); ("KI", 0.3); ("KG", 0.35);
     ("CI", 0.7); ("CG", 0.95); ("CS", 0.1)].

(** A valid parameter set whose interflow coefficient exceeds its
    groundwater coefficient. *)
Definition interflow_params : gmap string R :=
  list_to_map
    [("UM", 20); ("LM", 80); ("DM", 60); ("C", 0.15); ("B", 0.3);
     ("IM", 0.02); ("SM", 10); ("EX", 1); ("KI", 0.5); ("KG", 0.1);
     ("CI", 0.7); ("CG", 0.95); ("CS", 0.1)].

(** An in-range initial state for [interflow_params]: saturated soil and a
    full free-water tank. *)
Definition saturated_states : gmap string (option R) :=
  list_to_map
    [("WU0", Some 20); ("WL0", Some 80); ("WD0", Some 60);
     ("S0", Some 10); ("FR0", Some 1); ("QS0", Some 0.01);
     ("QI0", Some 0.01); ("QG0", Some 0.01)].

(** The keys of the initial-state mapping. *)
Definition state_keys : list string :=
  ["WU0"; "WL0"; "WD0"; "S0"; "FR0"; "QS0"; "QI0"; "QG0"].

(** A mapping of initial states in which every value [None] is replaced by
    the documented default: [0.6 * UM], [0.6 * LM], [0.6 * DM], [0.6 * SM],
    [0.02] and three times [0.01]. *)
Definition with_defaults (um lm dm sm : R) (d : gmap string (option R))
  : gmap string (option R) :=
  let value (key : string) (default : R) : option R :=
    Some (or_default (mjoin (d !! key)) default) in
  <["WU0" := value "WU0" (0.6 * um)]>
    (<["WL0" := value "WL0" (0.6 * lm)]>
       (<["WD0" := value "WD0" (0.6 * dm)]>
          (<["S0" := value "S0" (0.6 * sm)]>
             (<["FR0" := value "FR0" 0.02]>
                (<["QS0" := value "QS0" 0.01]>
                   (<["QI0" := value "QI0" 0.01]>
                      (<["QG0" := value "QG0" 0.01]> d))))))).

(** * Properties *)

(** ** The error monad and the primitives *)

Lemma div_Ok (x y : R) : y ≠ 0 → div x y = Ok (x / y).
Proof. intros Hy. unfold div. by rewrite bool_decide_eq_false_2. Qed.

Lemma div_zero (x y : R) : y = 0 → div x y = Raise ZeroDivisionError.
Proof. intros Hy. unfold div. by rewrite bool_decide_eq_true_2. Qed.

Lemma div_inv {A : Type} (x y : R) (f : R → res A) (v : A) :
  (div x y ≫= f) = Ok v → y ≠ 0 ∧ f (x / y) = Ok v.
Proof.
  unfold div. case_bool_decide as Hy; [discriminate|]. by intros Hf.
Qed.

Lemma div_raise (x y : R) (e : exn) :
  div x y = Raise e → e = ZeroDivisionError.
Proof. unfold div. case_bool_decide; [by intros [= <-] | discriminate]. Qed.

Lemma power_pos (x y : R) : 0 < x → power x y = Ok (Rpower x y).
Proof. intros Hx. unfold power. by rewrite bool_decide_eq_true_2. Qed.

Lemma power_nan_Ok (x y q : R) :
  power x y = Ok q → power_nan x y = Ok (Some q).
Proof. intros H. unfold power_nan. by rewrite H. Qed.

Lemma power_zero (y : R) : 0 < y → power 0 y = Ok 0.
Proof.
  intros Hy. unfold power.
  rewrite (bool_decide_eq_false_2 (0 < 0)) by lra.
  rewrite (bool_decide_eq_true_2 (0 = 0)) by lra.
  rewrite (bool_decide_eq_false_2 (y < 0)) by lra.
  rewrite (bool_decide_eq_false_2 (y = 0)) by lra.
  reflexivity.
Qed.

Lemma Rpower_one_base (y : R) : Rpower 1 y = 1.
Proof. unfold Rpower. rewrite ln_1, Rmult_0_r. apply exp_0. Qed.

Lemma Rpower_gt_0 (x y : R) : 0 < Rpower x y.
Proof. unfold Rpower. apply exp_pos. Qed.

Lemma Rpower_le_1 (x y : R) : 0 < x <= 1 → 0 <= y → Rpower x y <= 1.
Proof.
  intros Hx Hy. rewrite <- (Rpower_one_base y). by apply Rle_Rpower_l.
Qed.

(** A root followed by the power it inverts gives the base back. *)
Lemma Rpower_root (x k : R) : 0 < x → k ≠ 0 → Rpower (Rpower x (1 / k)) k = x.
Proof.
  intros Hx Hk. rewrite Rpower_mult.
  replace (1 / k * k) with 1 by (field; done).
  by apply Rpower_1.
Qed.

(** The power at exponent one and the power at exponent two. *)
Lemma power_one (x : R) : 0 <= x → power x 1 = Ok x.
Proof.
  intros [Hx | <-].
  - rewrite power_pos by done. by rewrite Rpower_1.
  - apply power_zero. lra.
Qed.

Lemma Rpower_two (x : R) : 0 < x → Rpower x (1 + 1) = x * x.
Proof.
  intros Hx. replace (1 + 1) with (INR 2) by (simpl; lra).
  rewrite Rpower_pow by done. simpl. lra.
Qed.

Lemma Rpower_half (x y : R) : 0 < y → y * y = x → Rpower x (1 / (1 + 1)) = y.
Proof.
  intros Hy Hx. replace (1 / (1 + 1)) with (/ 2) by lra.
  rewrite Rpower_sqrt by nra. apply sqrt_lem_1; nra.
Qed.

Lemma np_maximum_0_lower (x : R) : 0 <= np_maximum x 0.
Proof. unfold np_maximum. apply Rmax_r. Qed.

Lemma np_maximum_0_id (x : R) : 0 <= x → np_maximum x 0 = x.
Proof. intros Hx. unfold np_maximum. by apply Rmax_left. Qed.

Lemma np_clip_bounds (x lo hi : R) : lo <= hi → lo <= np_clip x lo hi <= hi.
Proof.
  intros H. unfold np_clip. split.
  - apply Rmin_glb; [done | apply Rmax_r].
  - apply Rmin_l.
Qed.

Lemma np_clip_id (x lo hi : R) : lo <= x <= hi → np_clip x lo hi = x.
Proof.
  intros [H1 H2]. unfold np_clip.
  rewrite Rmax_left by done. by apply Rmin_right.
Qed.

(** Comparisons of a quotient with a positive denominator. *)
Lemma quot_le (x y z : R) : 0 < y → x <= z * y → x / y <= z.
Proof.
  intros Hy H. apply (Rmult_le_reg_r y); [done |].
  replace (x / y * y) with x by (field; lra). done.
Qed.

Lemma quot_lt (x y z : R) : 0 < y → x < z * y → x / y < z.
Proof.
  intros Hy H. apply (Rmult_lt_reg_r y); [done |].
  replace (x / y * y) with x by (field; lra). done.
Qed.

Lemma quot_ge (x y z : R) : 0 < y → z * y <= x → z <= x / y.
Proof.
  intros Hy H. apply (Rmult_le_reg_r y); [done |].
  replace (x / y * y) with x by (field; lra). done.
Qed.

(** ** The runoff computation *)

(** The runoff computation returns under valid parameters, and its raw
    runoff [r_cal] lies between [pe - (wm - w0)] and [pe] and vanishes
    with [pe]. *)
Lemma calculate_prcp_runoff_cases (b im wm w0 pe : R) :
  0 < b → im < 1 → 0 < wm → w0 <= wm → 0 <= pe →
  ∃ r_cal : R,
    calculate_prcp_runoff b im wm w0 pe
      = Ok (np_maximum r_cal 0, np_maximum (pe * im) 0)
    ∧ pe - (wm - w0) <= r_cal <= pe
    ∧ (pe = 0 → r_cal = 0).
Proof.
  intros Hb Him Hwm Hw0 Hpe.
  unfold calculate_prcp_runoff.
  rewrite !div_Ok by lra. cbn.
  set (wmm := wm * (1 + b) / (1 - im)).
  assert (Hwmm : 0 < wmm).
  { unfold wmm. apply Rdiv_lt_0_compat; nra. }
  assert (Hx : 0 <= 1 - w0 / wm).
  { assert (w0 / wm <= 1) by (apply quot_le; lra). lra. }
  assert (Hk : 0 < 1 / (1 + b)).
  { apply Rdiv_lt_0_compat; lra. }
  destruct Hx as [Hx | Hx].
  - (* the soil is not saturated *)
    rewrite power_pos by done. cbn.
    set (q := Rpower (1 - w0 / wm) (1 / (1 + b))).
    assert (Hq : 0 < q) by apply Rpower_gt_0.
    assert (Hqb : Rpower q (1 + b) = 1 - w0 / wm).
    { unfold q. apply Rpower_root; lra. }
    assert (Hcap : wm * (1 - w0 / wm) = wm - w0) by (field; lra).
    case_bool_decide as Hbr.
    + assert (Hy : 1 - (wmm * (1 - q) + pe) / wmm = q - pe / wmm)
        by (field; lra).
      rewrite div_Ok by lra. cbn. rewrite Hy.
      assert (Hbase : 0 < q - pe / wmm).
      { assert (pe / wmm < q) by (apply quot_lt; [done | nra]). lra. }
      rewrite power_pos by done. cbn.
      eexists. split; [reflexivity |].
      pose proof (Rpower_gt_0 (q - pe / wmm) (1 + b)) as Hq'.
      split; [split; [nra |] |].
      * assert (Rpower (q - pe / wmm) (1 + b) <= Rpower q (1 + b)) as Hle.
        { apply Rle_Rpower_l; [lra |]. split; [done |].
          assert (0 <= pe / wmm) by (apply quot_ge; lra). lra. }
        rewrite Hqb in Hle. nra.
      * intros ->. replace (q - 0 / wmm) with q by (field; lra).
        rewrite Hqb. lra.
    + eexists. split; [reflexivity |].
      split; [lra |].
      intros ->. exfalso. apply Hbr. nra.
  - (* the soil is saturated: [w0 = wm] *)
    rewrite <- Hx. rewrite power_zero by done. cbn.
    assert (Hsat : w0 = wm).
    { assert (w0 / wm = 1) as H1 by lra.
      by apply Rdiv_diag_uniq. }
    rewrite (bool_decide_eq_false_2 (pe + wmm * (1 - 0) < wmm)) by lra.
    eexists. split; [reflexivity |]. repeat split; lra.
Qed.

(** C10: under valid parameters, an antecedent moisture within
    [0 <= w0 <= wm] and a net rainfall [pe >= 0], the runoff computation
    returns [r] and [r_im] with [0 <= r <= pe] and [0 <= r_im <= pe]. *)
Theorem calculate_prcp_runoff_bounded (b im wm w0 pe : R) :
  0 < b → 0 <= im < 1 → 0 < wm → 0 <= w0 <= wm → 0 <= pe →
  ∃ r r_im : R,
    calculate_prcp_runoff b im wm w0 pe = Ok (r, r_im)
    ∧ 0 <= r <= pe ∧ 0 <= r_im <= pe.
Proof.
  intros Hb [Him0 Him1] Hwm [Hw0 Hw1] Hpe.
  destruct (calculate_prcp_runoff_cases b im wm w0 pe)
    as (r_cal & Hrun & [Hlo Hhi] & _); try done.
  exists (np_maximum r_cal 0), (np_maximum (pe * im) 0).
  split; [done |]. unfold np_maximum. split; split.
  - apply Rmax_r.
  - apply Rmax_lub; lra.
  - apply Rmax_r.
  - apply Rmax_lub; nra.
Qed.

Lemma calculate_prcp_runoff_bounded_witness :
  0 < 1 ∧ 0 <= 0 < 1 ∧ 0 < 3 ∧ 0 <= 2 <= 3 ∧ 0 <= 1 ∧
  ∃ r r_im : R,
    calculate_prcp_runoff 1 0 3 2 1 = Ok (r, r_im)
    ∧ 0 <= r <= 1 ∧ 0 <= r_im <= 1.
Proof.
  repeat (split; [lra |]).
  apply (calculate_prcp_runoff_bounded 1 0 3 2 1); lra.
Defined.

(** ** The generation step *)

(** The three-layer evaporation returns as soon as [lm] is not zero; with
    non-negative arguments the three parts are non-negative. *)
Lemma calculate_evap_Ok (lm c wu0 wl0 prcp pet : R) :
  0 < lm →
  ∃ eu el ed : R,
    calculate_evap lm c wu0 wl0 prcp pet = Ok (eu, el, ed)
    ∧ (0 <= c → 0 <= wu0 → 0 <= wl0 → 0 <= prcp → 0 <= pet →
       0 <= eu ∧ 0 <= el ∧ 0 <= ed).
Proof.
  intros Hlm. unfold calculate_evap.
  destruct (bool_decide_reflect (wu0 + prcp >= pet)) as [Hu | Hu].
  - eexists _, _, _. split; [reflexivity |].
    intros Hc Hwu Hwl Hp Hpet. repeat split; try lra.
    destruct (bool_decide_reflect (wl0 < c * lm)),
      (bool_decide_reflect (wl0 < c * (pet - pet))); simpl; lra.
  - destruct (bool_decide_reflect (wl0 >= c * lm)) as [Hl | Hl].
    + rewrite div_Ok by lra. eexists _, _, _. split; [reflexivity |].
      intros Hc Hwu Hwl Hp Hpet. repeat split; try lra.
      * apply quot_ge; [done |]. nra.
      * rewrite (bool_decide_eq_false_2 (wl0 < c * lm)) by lra. simpl. lra.
    + destruct (bool_decide_reflect (wl0 >= c * (pet - (wu0 + prcp))));
        (eexists _, _, _; split; [reflexivity |]);
        intros Hc Hwu Hwl Hp Hpet; (repeat split; try lra; try nra);
        destruct (bool_decide_reflect (wl0 < c * lm)),
          (bool_decide_reflect (wl0 < c * (pet - (wu0 + prcp))));
        simpl; lra.
Qed.

(** The antecedent moisture handed to the runoff computation, capped at
    [wm]. *)
Lemma generation_cap (w0_ wm : R) :
  (if bool_decide (w0_ > wm) then wm else w0_) <= wm.
Proof. case_bool_decide; lra. Qed.

(** The generation step returns under valid parameters, whatever the prior
    state and the forcing: its results are described from the evaporation
    [(eu, el, ed)] and the raw runoff [r_cal]. *)
Lemma generation_cases (p_and_e : R * R) (um lm dm c b im : R)
    (wu0 wl0 wd0 : option R) :
  0 < um → 0 < lm → 0 < dm → 0 < b → im < 1 →
  let prcp := np_maximum (fst p_and_e) 0 in
  let pet := np_maximum (snd p_and_e) 0 in
  let wm := um + lm + dm in
  let wu := or_default wu0 (0.6 * um) in
  let wl := or_default wl0 (0.6 * lm) in
  let wd := or_default wd0 (0.6 * dm) in
  let w0 := if bool_decide (wu + wl + wd > wm) then wm else wu + wl + wd in
  ∃ eu el ed r_cal : R,
    calculate_evap lm c wu wl prcp pet = Ok (eu, el, ed)
    ∧ let e := eu + el + ed in
      let pe := np_maximum (prcp - e) 0 in
      let r := np_maximum r_cal 0 in
      generation p_and_e um lm dm c b im wu0 wl0 wd0
        = Ok ((r, np_maximum (pe * im) 0, e, pe),
              calculate_w_storage um lm dm wu wl wd eu el ed pe r)
      ∧ pe - (wm - w0) <= r_cal <= pe
      ∧ (pe = 0 → r_cal = 0).
Proof.
  intros Hum Hlm Hdm Hb Him prcp pet wm wu wl wd w0.
  destruct (calculate_evap_Ok lm c wu wl prcp pet Hlm)
    as (eu & el & ed & Hevap & _).
  set (pe := np_maximum (prcp - (eu + el + ed)) 0).
  destruct (calculate_prcp_runoff_cases b im wm w0 pe)
    as (r_cal & Hrun & Hbounds & Hzero); try done.
  { unfold wm. lra. }
  { apply generation_cap. }
  { apply np_maximum_0_lower. }
  exists eu, el, ed, r_cal. split; [done |]. cbn zeta.
  split; [| done].
  unfold generation. fold prcp pet wm wu wl wd. fold w0.
  rewrite Hevap. cbn. fold pe. rewrite Hrun. cbn.
  reflexivity.
Qed.

(** The storage update when the recomputed net rainfall [p - e] is not
    positive: every layer loses its own evaporation. *)
Lemma calculate_w_storage_dry (um lm dm wu0 wl0 wd0 eu el ed p r : R) :
  p - (eu + el + ed) <= 0 →
  calculate_w_storage um lm dm wu0 wl0 wd0 eu el ed p r
    = (np_clip (wu0 - eu) 0 um, np_clip (wl0 - el) 0 lm,
       np_clip (wd0 - ed) 0 dm).
Proof.
  intros Hdry. unfold calculate_w_storage.
  assert (np_maximum (p - (eu + el + ed)) 0 = 0) as ->.
  { unfold np_maximum. by apply Rmax_right. }
  by rewrite (bool_decide_eq_false_2 (0 > 0)) by lra.
Qed.

(** C5: with [prcp = 0] and [pet = 0], valid parameters and an in-range
    prior state, every layer's evaporation is zero and the generation step
    returns [r = 0], [r_im = 0] and the prior soil state unchanged. *)
Theorem generation_zero_forcing (um lm dm c b im wu0 wl0 wd0 : R) :
  0 < um → 0 < lm → 0 < dm → 0 <= c <= 1 → 0 < b → 0 <= im < 1 →
  0 <= wu0 <= um → 0 <= wl0 <= lm → 0 <= wd0 <= dm →
  calculate_evap lm c wu0 wl0 0 0 = Ok (0, 0, 0)
  ∧ generation (0, 0) um lm dm c b im (Some wu0) (Some wl0) (Some wd0)
      = Ok ((0, 0, 0, 0), (wu0, wl0, wd0)).
Proof.
  intros Hum Hlm Hdm Hc Hb Him Hwu Hwl Hwd.
  assert (Hevap0 : calculate_evap lm c wu0 wl0 0 0 = Ok (0, 0, 0)).
  { unfold calculate_evap.
    rewrite (bool_decide_eq_true_2 (wu0 + 0 >= 0)) by lra.
    rewrite (bool_decide_eq_false_2 (wl0 < c * (0 - 0))) by lra.
    by rewrite andb_false_r. }
  split; [done |].
  assert (Hmax0 : np_maximum 0 0 = 0) by (apply np_maximum_0_id; lra).
  destruct (generation_cases (0, 0) um lm dm c b im
              (Some wu0) (Some wl0) (Some wd0))
    as (eu & el & ed & r_cal & Hevap & Hgen & _ & Hzero); try lra.
  simpl in Hevap, Hgen, Hzero. rewrite Hmax0 in *.
  rewrite Hevap0 in Hevap. injection Hevap as <- <- <-.
  replace (0 + 0 + 0) with 0 in * by lra.
  replace (0 - 0) with 0 in * by lra.
  rewrite Hmax0 in *. rewrite Hzero in Hgen by done.
  rewrite Rmult_0_l, Hmax0 in Hgen. rewrite Hgen.
  rewrite calculate_w_storage_dry by lra.
  rewrite !Rminus_0_r, !np_clip_id by lra. reflexivity.
Qed.

Lemma generation_zero_forcing_witness :
  0 < 20 ∧ 0 < 80 ∧ 0 < 60 ∧ 0 <= 0.15 <= 1 ∧ 0 < 0.3 ∧ 0 <= 0.02 < 1 ∧
  0 <= 12 <= 20 ∧ 0 <= 48 <= 80 ∧ 0 <= 36 <= 60 ∧
  calculate_evap 80 0.15 12 48 0 0 = Ok (0, 0, 0)
  ∧ generation (0, 0) 20 80 60 0.15 0.3 0.02 (Some 12) (Some 48) (Some 36)
      = Ok ((0, 0, 0, 0), (12, 48, 36)).
Proof.
  repeat (split; [lra |]).
  apply (generation_zero_forcing 20 80 60 0.15 0.3 0.02 12 48 36); lra.
Defined.

(** ** Evaluation at concrete inputs *)

(** Decides the comparisons, maxima, minima and divisions of a goal whose
    numbers are concrete. *)
Ltac eval_real :=
  repeat first
    [ progress unfold np_maximum, np_clip
    | progress cbn [mbind res_bind mret res_ret or_default fst snd andb]
    | match goal with
      | |- context [bool_decide ?P] =>
          first [ rewrite (bool_decide_eq_true_2 P) by first [lra | done]
                | rewrite (bool_decide_eq_false_2 P) by first [lra | done] ]
      | |- context [Rmax ?a ?b] =>
          first [ rewrite (Rmax_left a b) by lra
                | rewrite (Rmax_right a b) by lra ]
      | |- context [Rmin ?a ?b] =>
          first [ rewrite (Rmin_left a b) by lra
                | rewrite (Rmin_right a b) by lra ]
      | |- context [div ?a ?b] => rewrite (div_Ok a b) by lra
      end ].

(** The generation step at rainfall 3 and potential evapotranspiration 2,
    with capacities [(4, 2, 2)], [b = 1], [im = 0] and the prior state
    [(4, 2, 0)]. *)
Lemma generation_example_3_2 :
  generation (3, 2) 4 2 2 0.15 1 0 (Some 4) (Some 2) (Some 0)
    = Ok ((17 / 32, 0, 2, 1), (2, 2, 0)).
Proof.
  assert (Hevap : calculate_evap 2 0.15 4 2 3 2 = Ok (2, 0, 0)).
  { unfold calculate_evap. by eval_real. }
  assert (Hrun : calculate_prcp_runoff 1 0 8 6 1 = Ok (17 / 32, 0)).
  { unfold calculate_prcp_runoff. eval_real.
    rewrite power_pos by lra.
    rewrite (Rpower_half _ (1 / 2)) by lra.
    eval_real.
    rewrite power_pos by lra. rewrite Rpower_two by lra.
    eval_real. repeat f_equal; lra. }
  unfold generation. eval_real. rewrite Hevap. eval_real.
  replace (4 + 2 + 2) with 8 by lra.
  replace (4 + 2 + 0) with 6 by lra.
  replace (3 - (2 + 0 + 0)) with 1 by lra.
  rewrite Hrun. eval_real.
  unfold calculate_w_storage. eval_real.
  repeat f_equal; lra.
Qed.

(** The generation step at rainfall 10 and potential evapotranspiration 2,
    with capacities [(1, 2, 1)], [b = 1], [im = 0] and the prior state
    [(0, 2, 1)]: the upper layer is empty and the runoff [7] exceeds what
    the storage update lets in. *)
Lemma generation_example_10_2 :
  generation (10, 2) 1 2 1 0.15 1 0 (Some 0) (Some 2) (Some 1)
    = Ok ((7, 0, 2, 8), (0, 2, 1)).
Proof.
  assert (Hevap : calculate_evap 2 0.15 0 2 10 2 = Ok (2, 0, 0)).
  { unfold calculate_evap. by eval_real. }
  assert (Hrun : calculate_prcp_runoff 1 0 4 3 8 = Ok (7, 0)).
  { unfold calculate_prcp_runoff. eval_real.
    rewrite power_pos by lra.
    rewrite (Rpower_half _ (1 / 2)) by lra.
    eval_real. repeat f_equal; lra. }
  unfold generation. eval_real. rewrite Hevap. eval_real.
  replace (1 + 2 + 1) with 4 by lra.
  replace (0 + 2 + 1) with 3 by lra.
  replace (10 - (2 + 0 + 0)) with 8 by lra.
  rewrite Hrun. eval_real.
  unfold calculate_w_storage. eval_real.
  repeat f_equal; lra.
Qed.

(** ** Water balance of the generation step *)

(** C1: the generation step breaks the water balance.  The storage
    update documents its argument [p] as the rainfall and the change of the
    soil water as [pe - r]; [generation] hands it the net rainfall [pe]
    instead, and the evaporation is subtracted a second time.  At rainfall
    3 and potential evapotranspiration 2, with valid parameters and an
    in-range state, the step returns the net rainfall [pe = 1 > 0], the
    runoff [17/32] and the evaporation [2]; the storage update finds
    [pe - e <= 0], takes the branch without additional water and only
    removes the evaporation, so that the soil holds [4] and not
    [6 + 1 - 17/32 - 2].  At rainfall 10 on an empty upper layer,
    [pe = 8] exceeds [e = 2], but the runoff [7] exceeds [pe - e], the
    upper layer is clipped at zero, and the soil holds [3] and not
    [3 + 8 - 7 - 2]. *)
Theorem generation_breaks_water_balance :
  (∃ r rim e pe wu wl wd : R,
     generation (3, 2) 4 2 2 0.15 1 0 (Some 4) (Some 2) (Some 0)
       = Ok ((r, rim, e, pe), (wu, wl, wd))
     ∧ pe > 0
     ∧ wu + wl + wd ≠ 4 + 2 + 0 + pe - r - e)
  ∧ (∃ r rim e pe wu wl wd : R,
       generation (10, 2) 1 2 1 0.15 1 0 (Some 0) (Some 2) (Some 1)
         = Ok ((r, rim, e, pe), (wu, wl, wd))
       ∧ pe > e
       ∧ wu + wl + wd ≠ 0 + 2 + 1 + pe - r - e).
Proof.
  split.
  - exists (17 / 32), 0, 2, 1, 2, 2, 0.
    split; [apply generation_example_3_2 |]. split; lra.
  - exists 7, 0, 2, 8, 0, 2, 1.
    split; [apply generation_example_10_2 |]. split; lra.
Qed.

(** ** The standard source partitioner *)

(** A power with a non-negative exponent never divides by zero. *)
Lemma power_no_zero_division (x y : R) :
  0 <= y → power x y ≠ Raise ZeroDivisionError.
Proof.
  intros Hy. unfold power.
  repeat case_bool_decide; try discriminate. lra.
Qed.

(** The power of a base within [0, 1] at a positive exponent returns within
    [0, 1]; it is zero only at the base zero. *)
Lemma power_unit_interval (x y : R) :
  0 <= x <= 1 → 0 < y →
  ∃ q : R, power x y = Ok q ∧ 0 <= q <= 1 ∧ (0 < x → q = Rpower x y).
Proof.
  intros [[Hx | <-] Hx1] Hy.
  - exists (Rpower x y). rewrite power_pos by done.
    split; [done |]. split; [| done]. split.
    + left. apply Rpower_gt_0.
    + apply Rpower_le_1; lra.
  - exists 0. rewrite power_zero by done. split; [done |]. split; lra.
Qed.

(** C3, as stated, fails: with [pe = 0] and [r = 0], a full tank
    [s0 = SM = 10] and [fr0 = 0.5], the partitioner returns the area
    fraction [fr0] but the storage [s0 * (1 - KI - KG) = 3.5], after the
    outflows [ri = 1.5] and [rg = 1.75]. *)
Lemma sources_no_rain_counterexample :
  sources 0 0 10 1 0.3 0.35 (Some 10) (Some 0.5)
    = Ok ((0, 1.5, 1.75), (0.5, 3.5))
  ∧ 3.5 ≠ 10.
Proof.
  split; [| lra].
  unfold sources. eval_real.
  replace (1 - 0.5 * 10 / 0.5 / 10) with 0 by lra.
  rewrite (power_nan_Ok 0 _ 0) by (apply power_zero; lra). eval_real.
  repeat f_equal; lra.
Qed.

(** Runs the divisions of a goal whose denominators [tac] proves to be
    non-zero. *)
Ltac run_div tac :=
  repeat first
    [ rewrite div_Ok by tac
    | progress cbn [mbind res_bind mret res_ret or_default] ].

(** C3, amended: with valid tank parameters, a prior storage within
    [0 <= s0 <= SM] and a prior area fraction [fr0] that is not zero, every
    call with [pe < 1e-5] returns, and the returned area fraction is [fr0];
    with [pe = 0] and [r = 0] the surface runoff is zero and the returned
    storage is [s0 * (1 - KI - KG)], the prior storage after its interflow
    and groundwater outflow. *)
Theorem sources_no_rain_guard (pe r sm ex ki kg s0 fr0 : R) :
  0 < sm → 0 < ex → 0 <= s0 <= sm → fr0 ≠ 0 → pe < 1e-5 →
  ∃ rs ri rg s1 : R,
    sources pe r sm ex ki kg (Some s0) (Some fr0)
      = Ok ((rs, ri, rg), (fr0, s1))
    ∧ (pe = 0 → r = 0 → rs = 0 ∧ s1 = s0 * (1 - ki - kg)).
Proof.
  intros Hsm Hex Hs0 Hfr0 Hpe.
  assert (Hms : 0 < sm * (1 + ex)) by nra.
  unfold sources. cbn [or_default].
  rewrite (bool_decide_eq_true_2 (pe < 1e-5)) by done.
  run_div ltac:(first [done | lra]).
  replace (fr0 * s0 / fr0) with s0 by (field; done).
  assert (Hx : 0 <= 1 - s0 / sm <= 1).
  { assert (s0 / sm <= 1) by (apply quot_le; lra).
    assert (0 <= s0 / sm) by (apply quot_ge; lra). lra. }
  destruct (power_unit_interval (1 - s0 / sm) (1 / (1 + ex)) Hx)
    as (q & Hq & Hq01 & Hqpos).
  { apply Rdiv_lt_0_compat; lra. }
  rewrite (power_nan_Ok _ _ _ Hq). cbn [mbind res_bind].
  set (ms := sm * (1 + ex)) in *.
  case_bool_decide as Hbr.
  - run_div ltac:(first [done | lra]).
    assert (Hbase : 0 < 1 - (pe + ms * (1 - q)) / ms).
    { assert ((pe + ms * (1 - q)) / ms < 1) by (apply quot_lt; lra). lra. }
    rewrite power_pos by done.
    run_div ltac:(first [done | lra]).
    eexists _, _, _, _. split; [reflexivity |].
    intros -> ->.
    assert (Hrs : Rpower (1 - (0 + ms * (1 - q)) / ms) (ex + 1) = 1 - s0 / sm).
    { replace (1 - (0 + ms * (1 - q)) / ms) with q by (field; lra).
      destruct Hx as [[Hx | Hx] _].
      - rewrite Hqpos by done. replace (ex + 1) with (1 + ex) by lra.
        apply Rpower_root; lra.
      - exfalso. rewrite <- Hx in Hq. rewrite power_zero in Hq.
        + injection Hq as <-. lra.
        + apply Rdiv_lt_0_compat; lra. }
    rewrite Hrs.
    assert (Hrs0 : fr0 * (0 + s0 - sm + sm * (1 - s0 / sm)) = 0)
      by (field; lra).
    rewrite Hrs0. split.
    + apply np_maximum_0_id. lra.
    + f_equal. field; done.
  - run_div ltac:(first [done | lra]).
    eexists _, _, _, _. split; [reflexivity |].
    intros -> ->.
    assert (Hq0 : q = 0) by nra.
    assert (Hsat : s0 = sm).
    { destruct Hx as [[Hx | Hx] _].
      - exfalso. pose proof (Rpower_gt_0 (1 - s0 / sm) (1 / (1 + ex))).
        rewrite <- Hqpos in H by done. lra.
      - assert (s0 / sm = 1) as H1 by lra. by apply Rdiv_diag_uniq. }
    subst s0. split.
    + replace (fr0 * (0 + sm - sm)) with 0 by lra.
      apply np_maximum_0_id. lra.
    + f_equal. field; done.
Qed.

Lemma sources_no_rain_guard_witness :
  0 < 10 ∧ 0 < 1 ∧ 0 <= 10 <= 10 ∧ 0.5 ≠ 0 ∧ 0 < 1e-5 ∧
  ∃ rs ri rg s1 : R,
    sources 0 0 10 1 0.3 0.35 (Some 10) (Some 0.5)
      = Ok ((rs, ri, rg), (0.5, s1))
    ∧ (0 = 0 → 0 = 0 → rs = 0 ∧ s1 = 10 * (1 - 0.3 - 0.35)).
Proof.
  repeat (split; [lra |]).
  apply (sources_no_rain_guard 0 0 10 1 0.3 0.35 10 0.5); lra.
Defined.

(** C8: with [pe >= 1e-5] and valid tank parameters the standard
    partitioner divides by the area fraction [fr = r / pe], and it stops on
    a division by zero exactly when [r = 0], whatever the other
    arguments. *)
Theorem sources_divides_by_zero_runoff (pe r sm ex ki kg : R)
    (s0 fr0 : option R) :
  1e-5 <= pe → 0 < sm → 0 < ex →
  sources pe r sm ex ki kg s0 fr0 = Raise ZeroDivisionError ↔ r = 0.
Proof.
  intros Hpe Hsm Hex.
  assert (Hms : 0 < sm * (1 + ex)) by nra.
  unfold sources.
  rewrite (bool_decide_eq_false_2 (pe < 1e-5)) by lra.
  set (s := or_default s0 (0.60 * sm)). set (f := or_default fr0 0.02).
  split.
  - (* any runoff other than zero passes every division *)
    intros Hraise. destruct (decide (r = 0)) as [| Hr]; [done |]. exfalso.
    assert (Hfr : r / pe ≠ 0).
    { intros H0. apply Hr.
      apply (f_equal (fun t => t * pe)) in H0.
      unfold Rdiv in H0. rewrite Rmult_assoc, Rinv_l, Rmult_1_r in H0 by lra.
      lra. }
    revert Hraise.
    run_div ltac:(first [done | lra]).
    unfold power_nan.
    destruct (power (1 - f * s / (r / pe) / sm) (1 / (1 + ex)))
      as [q | e] eqn:Hq.
    + cbn [mbind res_bind]. set (ms := sm * (1 + ex)) in *.
      case_bool_decide as Hbr.
      * run_div ltac:(first [done | lra]).
        rewrite power_pos.
        -- run_div ltac:(first [done | lra]). discriminate.
        -- assert ((pe + ms * (1 - q)) / ms < 1) by (apply quot_lt; lra).
           lra.
      * run_div ltac:(first [done | lra]). discriminate.
    + destruct e; cbn [mbind res_bind]; try discriminate.
      * intros _.
        apply (power_no_zero_division _ _ (Rlt_le _ _
                 (Rdiv_lt_0_compat 1 (1 + ex) Rlt_0_1 ltac:(lra))) Hq).
      * (* a nan: equation 2.86 *)
        run_div ltac:(first [done | lra]). discriminate.
  - (* no runoff: the area fraction is zero *)
    intros ->. rewrite (div_Ok 0 pe) by lra. cbn [mbind res_bind].
    rewrite (div_zero (f * s) (0 / pe)); [done |]. unfold Rdiv. apply Rmult_0_l.
Qed.

Lemma sources_divides_by_zero_runoff_witness :
  1e-5 <= 7 ∧ 0 < 35 ∧ 0 < 1.2 ∧
  (sources 7 0 35 1.2 0.3 0.35 None None = Raise ZeroDivisionError ↔ 0 = 0).
Proof.
  repeat (split; [lra |]).
  apply (sources_divides_by_zero_runoff 7 0 35 1.2 0.3 0.35 None None); lra.
Defined.

(** ** The sub-stepped source partitioner *)

(** The integer part of a real that is an integer. *)
Lemma Int_part_IZR (z : Z) (x : R) : x = IZR z → Int_part x = z.
Proof. intros ->. symmetry. apply Int_part_spec. lra. Qed.

(** The power at exponent one, for every base. *)
Lemma power_one_any (x : R) : power x 1 = Ok x.
Proof.
  destruct (Rlt_le_dec x 0) as [Hx | Hx]; [| by apply power_one].
  unfold power.
  rewrite (bool_decide_eq_false_2 (0 < x)) by lra.
  rewrite (bool_decide_eq_false_2 (x = 0)) by lra.
  rewrite (Int_part_IZR 1 1) by done.
  rewrite (bool_decide_eq_true_2 (1 = 1)) by done.
  f_equal. simpl. lra.
Qed.

(** A power of a non-negative base raises nothing but a division by
    zero. *)
Lemma power_nonneg_raise (x y : R) (e : exn) :
  0 <= x → power x y = Raise e → e = ZeroDivisionError.
Proof.
  intros Hx. unfold power.
  repeat case_bool_decide; try discriminate; try lra. by intros [= <-].
Qed.

(** A power of a base strictly between 0 and 1 is 1 only at the exponent
    zero. *)
Lemma Rpower_neq_1 (x y : R) : 0 < x < 1 → y ≠ 0 → Rpower x y ≠ 1.
Proof.
  intros [Hx0 Hx1] Hy H1. unfold Rpower in H1.
  rewrite <- exp_0 in H1. apply exp_inv in H1.
  assert (ln x < 0).
  { rewrite <- ln_1. by apply ln_increasing. }
  apply Rmult_integral in H1 as [? | ?]; lra.
Qed.

(** With [ki = 0] the conversion of the coefficients divides by zero. *)
Lemma period_coefficients_zero_ki (kg : R) (time_interval_hours : Z) :
  kg <= 1 →
  period_coefficients 0 kg time_interval_hours = Raise ZeroDivisionError.
Proof.
  intros Hkg. unfold period_coefficients, int_mod.
  case_bool_decide as Ht; [done |]. cbn [mbind res_bind].
  rewrite (div_Ok (IZR 24) (IZR time_interval_hours))
    by (by apply not_0_IZR).
  cbn [mbind res_bind].
  destruct (div 1 (IZR _)) as [k | e] eqn:Hk; cbn [mbind res_bind].
  - destruct (power (1 - (0 + kg)) k) as [p | e] eqn:Hp;
      cbn [mbind res_bind].
    + by rewrite (div_zero kg 0).
    + f_equal. apply (power_nonneg_raise (1 - (0 + kg)) k e); [lra | done].
  - f_equal. by apply (div_raise _ _ _ Hk).
Qed.

(** C9: with [KI = 0] (and [KG <= 1], so that the root stays real) every
    call of the sub-stepped partitioner stops on a division by zero,
    whatever the other arguments. *)
Theorem sources5mm_zero_ki_divides (pe runoff sm ex kg : R)
    (s0 fr0 : option R) (time_interval_hours : Z) (book : string) :
  kg <= 1 →
  sources5mm pe runoff sm ex 0 kg s0 fr0 time_interval_hours book
    = Raise ZeroDivisionError.
Proof.
  intros Hkg. unfold sources5mm.
  by rewrite period_coefficients_zero_ki.
Qed.

Lemma sources5mm_zero_ki_divides_witness :
  0.35 <= 1 ∧
  sources5mm 7 3 35 1.2 0 0.35 None None 24 "ShuiWenYuBao"
    = Raise ZeroDivisionError.
Proof.
  split; [lra |].
  apply (sources5mm_zero_ki_divides 7 3 35 1.2 0.35 None None 24
           "ShuiWenYuBao"); lra.
Defined.

(** With valid coefficients, what the conversion returns: [kss_period] is
    not zero and [kg_period] keeps the ratio [kg / ki]. *)
Lemma period_coefficients_inv (ki kg : R) (time_interval_hours : Z)
    (kss_period kg_period : R) :
  0 < ki → 0 <= kg → ki + kg < 1 →
  period_coefficients ki kg time_interval_hours = Ok (kss_period, kg_period) →
  kss_period ≠ 0 ∧ kg_period = kss_period * kg / ki.
Proof.
  intros Hki Hkg Hsum. unfold period_coefficients, int_mod.
  case_bool_decide as Ht; [done |]. cbn [mbind res_bind].
  intros H. apply div_inv in H as [_ H]. apply div_inv in H as [Hn H].
  rewrite power_pos in H by lra. cbn [mbind res_bind] in H.
  assert (Hg : 0 <= kg / ki) by (apply quot_ge; lra).
  repeat (rewrite div_Ok in H by lra; cbn [mbind res_bind] in H).
  injection H as <- <-. split; [| done].
  set (n := IZR (py_int _ + _)) in *.
  assert (Hp : Rpower (1 - (ki + kg)) (1 / n) ≠ 1).
  { apply Rpower_neq_1; [lra |]. unfold Rdiv. rewrite Rmult_1_l.
    by apply Rinv_neq_0_compat. }
  intros H0. apply Hp.
  apply (f_equal (fun t => t * (1 + kg / ki))) in H0.
  unfold Rdiv in H0 at 1. rewrite Rmult_assoc, Rinv_l, Rmult_1_r in H0 by lra.
  lra.
Qed.

(** The loop over a single slice. *)
Lemma sources5mm_loop_single (slice : R → R → res ((R * R * R) * (R * R)))
    (s f : R) :
  sources5mm_loop slice (seq 0 (Z.to_nat 1)) (0, 0, 0) [s] [f]
    = '((rs_j, rss_j, rg_j), (fr_d, s_d)) ← slice f s;
      Ok ((0 + rs_j, 0 + rss_j, 0 + rg_j), ([s; s_d], [f; fr_d])).
Proof.
  change (seq 0 (Z.to_nat 1)) with [0%nat]. cbn.
  by destruct (slice f s) as [[[[? ?] ?] [? ?]] | ?].
Qed.

(** C6: with a generated runoff below 5 mm and valid outflow coefficients
    the partitioner takes one slice, and its result is the one of
    [sources5mm_single]: one slice update of the selected book with the
    full [pe] and [runoff], the area fraction [fr] and the coefficients of
    the time step. *)
Theorem sources5mm_single_slice (pe runoff sm ex ki kg : R)
    (s0 fr0 : option R) (time_interval_hours : Z) (book : string) :
  runoff < 5 → 0 < ki → 0 <= kg → ki + kg < 1 →
  slice_count runoff = Ok (1%Z, true)
  ∧ sources5mm pe runoff sm ex ki kg s0 fr0 time_interval_hours book
    = sources5mm_single pe runoff sm ex ki kg s0 fr0 time_interval_hours book.
Proof.
  intros Hr Hki Hkg Hsum.
  assert (Hn : slice_count runoff = Ok (1%Z, true)).
  { unfold slice_count. by rewrite bool_decide_eq_true_2. }
  split; [done |].
  unfold sources5mm, sources5mm_single. rewrite Hn.
  destruct (period_coefficients ki kg time_interval_hours)
    as [[kss kgp] | e] eqn:Hpc; cbn [mbind res_bind]; [| done].
  destruct (period_coefficients_inv _ _ _ _ _ Hki Hkg Hsum Hpc)
    as [Hkss Hkgp].
  replace (0.60 * sm) with (0.6 * sm) by lra.
  set (s := or_default s0 (0.6 * sm)). set (f := or_default fr0 0.02).
  destruct (if bool_decide (pe > 1e-5) then div runoff pe else Ok f)
    as [fr | e]; cbn [mbind res_bind]; [| done].
  set (fr' := np_clip fr 0.001 1).
  assert (Hratio : kgp / kss = kg / ki) by (rewrite Hkgp; field; lra).
  assert (Hg : 0 <= kg / ki) by (apply quot_ge; lra).
  assert (Hkss_d : (1 - (1 - (kss + kgp))) / (1 + kgp / kss) = kss).
  { rewrite Hratio, Hkgp. field. lra. }
  assert (Hkg_d : kss * kgp / kss = kgp) by (field; done).
  rewrite (div_Ok runoff 1), (div_Ok pe 1), (div_Ok 1 1) by lra.
  cbn [mbind res_bind].
  replace (1 / 1) with 1 by lra. rewrite power_one_any. cbn [mbind res_bind].
  rewrite (div_Ok kgp kss) by done. cbn [mbind res_bind].
  rewrite (div_Ok _ (1 + kgp / kss)) by lra. cbn [mbind res_bind].
  rewrite Hkss_d. rewrite (div_Ok _ kss) by done. cbn [mbind res_bind].
  rewrite Hkg_d.
  rewrite sources5mm_loop_single. unfold sources5mm_slice.
  rewrite (div_Ok 1 1) by lra. cbn [mbind res_bind].
  replace (1 / 1) with 1 by lra. rewrite power_one_any. cbn [mbind res_bind].
  replace (1 - (1 - fr')) with fr' by lra.
  replace (runoff / 1) with runoff by lra.
  replace (pe / 1) with pe by lra.
  destruct (slice_update _ _ _ _ _ _ _ _ _ _ _)
    as [[[[rs rss] rg] [fr_d s_d]] | e]; cbn; [| done].
  by rewrite !Rplus_0_l.
Qed.

Lemma sources5mm_single_slice_witness :
  3 < 5 ∧ 0 < 0.3 ∧ 0 <= 0.35 ∧ 0.3 + 0.35 < 1 ∧
  slice_count 3 = Ok (1%Z, true)
  ∧ sources5mm 7 3 35 1.2 0.3 0.35 None None 24 "ShuiWenYuBao"
    = sources5mm_single 7 3 35 1.2 0.3 0.35 None None 24 "ShuiWenYuBao".
Proof.
  repeat (split; [lra |]).
  apply (sources5mm_single_slice 7 3 35 1.2 0.3 0.35 None None 24
           "ShuiWenYuBao"); lra.
Defined.

(** ** The simulation driver *)

Lemma bind_Ok_inv {A B : Type} (m : res A) (f : A → res B) (v : B) :
  (m ≫= f) = Ok v → ∃ a : A, m = Ok a ∧ f a = Ok v.
Proof. destruct m as [a | e]; [eauto | discriminate]. Qed.

Lemma bind_ext {A B : Type} (m : res A) (f g : A → res B) :
  (∀ a : A, f a = g a) → (m ≫= f) = (m ≫= g).
Proof. intros H. destruct m as [a | e]; [apply H | done]. Qed.

Lemma getitem_Some {A : Type} (d : gmap string A) (key : string) (v : A) :
  d !! key = Some v → getitem d key = Ok v.
Proof. intros H. unfold getitem. by rewrite H. Qed.



Section DriverProperties.

Variable s_curves2 : Z → R → R.

(** The driver once its parameters are read. *)
Lemma xaj_read_params (p_and_e : list (R * R)) (params : gmap string R)
    (states : option (gmap string (option R))) (uh : option uh_arg)
    (source_type source_book : string)
    (b im um lm dm c sm ex ki kg ci cg : R) :
  has_params params b im um lm dm c sm ex ki kg ci cg →
  xaj s_curves2 p_and_e params states uh source_type source_book
    = (method ← match uh with
                | None => cs ← getitem params "CS"; Ok (LinearReservoir cs)
                | Some u => Ok (UnitHydrograph (uh_ordinates s_curves2 u))
                end;
       '(wu0, wl0, wd0, s0, fr0, qs0, qi0, qg0) ← initial_states states;
       '((runoff_ims_, rss_, ris_, rgs_), _) ←
         xaj_runoff_loop um lm dm c b im sm ex ki kg source_type
           source_book p_and_e (wu0, wl0, wd0) (s0, fr0) ([], [], [], []);
       if bool_decide (runoff_ims_ = []) then Raise ValueError
       else
         let rss_route := zip_with Rplus runoff_ims_ rss_ in
         let qs_ := match method with
                    | UnitHydrograph UH => convolve rss_route UH
                    | LinearReservoir _ => []
                    end in
         xaj_route_loop method ci cg qs0 qi0 qg0 rss_route qs_ ris_ rgs_
           (seq 0 (length p_and_e)) None []).
Proof.
  intros (HB & HIM & HUM & HLM & HDM & HC & HSM & HEX & HKI & HKG & HCI
          & HCG).
  unfold xaj.
  rewrite (getitem_Some _ _ _ HB), (getitem_Some _ _ _ HIM),
    (getitem_Some _ _ _ HUM), (getitem_Some _ _ _ HLM),
    (getitem_Some _ _ _ HDM), (getitem_Some _ _ _ HC),
    (getitem_Some _ _ _ HSM), (getitem_Some _ _ _ HEX),
    (getitem_Some _ _ _ HKI), (getitem_Some _ _ _ HKG),
    (getitem_Some _ _ _ HCI), (getitem_Some _ _ _ HCG).
  reflexivity.
Qed.


End DriverProperties.



(** ** The initial states *)

(** Membership in the list of the keys. *)
Ltac key_in :=
  unfold state_keys; rewrite !elem_of_cons; tauto.

(** A mapping that lacks one of the eight keys makes the reading of the
    initial states fail on the first key that is absent. *)
Lemma initial_states_missing (d : gmap string (option R)) :
  (∃ key : string, key ∈ state_keys ∧ d !! key = None) →
  ∃ key : string,
    key ∈ state_keys ∧ d !! key = None
    ∧ initial_states (Some d) = Raise (KeyError key).
Proof.
  intros (key & Hin & Hnone). unfold initial_states, getitem.
  destruct (d !! "WU0") eqn:H1; cbn [mbind res_bind];
    [| exists "WU0"; repeat split; [key_in | done]].
  destruct (d !! "WL0") eqn:H2; cbn [mbind res_bind];
    [| exists "WL0"; repeat split; [key_in | done]].
  destruct (d !! "WD0") eqn:H3; cbn [mbind res_bind];
    [| exists "WD0"; repeat split; [key_in | done]].
  destruct (d !! "S0") eqn:H4; cbn [mbind res_bind];
    [| exists "S0"; repeat split; [key_in | done]].
  destruct (d !! "FR0") eqn:H5; cbn [mbind res_bind];
    [| exists "FR0"; repeat split; [key_in | done]].
  destruct (d !! "QS0") eqn:H6; cbn [mbind res_bind];
    [| exists "QS0"; repeat split; [key_in | done]].
  destruct (d !! "QI0") eqn:H7; cbn [mbind res_bind];
    [| exists "QI0"; repeat split; [key_in | done]].
  destruct (d !! "QG0") eqn:H8; cbn [mbind res_bind];
    [| exists "QG0"; repeat split; [key_in | done]].
  exfalso. unfold state_keys in Hin.
  repeat (apply elem_of_cons in Hin as [-> | Hin]; [congruence |]).
  by apply elem_of_nil in Hin.
Qed.

(** A mapping that holds the eight keys is read entry by entry. *)
Lemma initial_states_present (d : gmap string (option R)) :
  (∀ key : string, key ∈ state_keys → is_Some (d !! key)) →
  initial_states (Some d)
    = Ok (mjoin (d !! "WU0"), mjoin (d !! "WL0"), mjoin (d !! "WD0"),
          mjoin (d !! "S0"), mjoin (d !! "FR0"), mjoin (d !! "QS0"),
          mjoin (d !! "QI0"), mjoin (d !! "QG0")).
Proof.
  intros Hall. unfold initial_states, getitem.
  destruct (Hall "WU0") as [v1 ->]; [key_in |].
  destruct (Hall "WL0") as [v2 ->]; [key_in |].
  destruct (Hall "WD0") as [v3 ->]; [key_in |].
  destruct (Hall "S0") as [v4 ->]; [key_in |].
  destruct (Hall "FR0") as [v5 ->]; [key_in |].
  destruct (Hall "QS0") as [v6 ->]; [key_in |].
  destruct (Hall "QI0") as [v7 ->]; [key_in |].
  destruct (Hall "QG0") as [v8 ->]; [key_in |].
  reflexivity.
Qed.

(** The mapping completed with the defaults is read as the defaulted
    values. *)
Lemma initial_states_with_defaults (um lm dm sm : R)
    (d : gmap string (option R)) :
  initial_states (Some (with_defaults um lm dm sm d))
    = Ok (Some (or_default (mjoin (d !! "WU0")) (0.6 * um)),
          Some (or_default (mjoin (d !! "WL0")) (0.6 * lm)),
          Some (or_default (mjoin (d !! "WD0")) (0.6 * dm)),
          Some (or_default (mjoin (d !! "S0")) (0.6 * sm)),
          Some (or_default (mjoin (d !! "FR0")) 0.02),
          Some (or_default (mjoin (d !! "QS0")) 0.01),
          Some (or_default (mjoin (d !! "QI0")) 0.01),
          Some (or_default (mjoin (d !! "QG0")) 0.01)).
Proof.
  unfold initial_states, getitem, with_defaults.
  by repeat (rewrite ?lookup_insert_eq, ?lookup_insert_ne by done;
             cbn [mbind res_bind]).
Qed.

(** The generation step and the partitioners resolve an argument [None]
    to its default on entry. *)
Lemma generation_defaults (p_and_e : R * R) (um lm dm c b im : R)
    (wu0 wl0 wd0 : option R) :
  generation p_and_e um lm dm c b im wu0 wl0 wd0
    = generation p_and_e um lm dm c b im
        (Some (or_default wu0 (0.6 * um))) (Some (or_default wl0 (0.6 * lm)))
        (Some (or_default wd0 (0.6 * dm))).
Proof. reflexivity. Qed.

Lemma sources_defaults (pe r sm ex ki kg : R) (s0 fr0 : option R) :
  sources pe r sm ex ki kg s0 fr0
    = sources pe r sm ex ki kg
        (Some (or_default s0 (0.6 * sm))) (Some (or_default fr0 0.02)).
Proof.
  unfold sources. cbn [or_default].
  by replace (0.60 * sm) with (0.6 * sm) by lra.
Qed.

Lemma sources5mm_defaults (pe r sm ex ki kg : R) (s0 fr0 : option R)
    (time_interval_hours : Z) (book : string) :
  sources5mm pe r sm ex ki kg s0 fr0 time_interval_hours book
    = sources5mm pe r sm ex ki kg
        (Some (or_default s0 (0.6 * sm))) (Some (or_default fr0 0.02))
        time_interval_hours book.
Proof.
  unfold sources5mm. cbn [or_default].
  by replace (0.60 * sm) with (0.6 * sm) by lra.
Qed.

(** The first loop started from arguments [None] is the loop started from
    their defaults. *)
Lemma xaj_runoff_loop_defaults (um lm dm c b im sm ex ki kg : R)
    (source_type source_book : string) (p_and_e : list (R * R))
    (wu0 wl0 wd0 s0 fr0 : option R)
    (out : list R * list R * list R * list R) :
  p_and_e ≠ [] →
  xaj_runoff_loop um lm dm c b im sm ex ki kg source_type source_book
    p_and_e (wu0, wl0, wd0) (s0, fr0) out
  = xaj_runoff_loop um lm dm c b im sm ex ki kg source_type source_book
      p_and_e
      (Some (or_default wu0 (0.6 * um)), Some (or_default wl0 (0.6 * lm)),
       Some (or_default wd0 (0.6 * dm)))
      (Some (or_default s0 (0.6 * sm)), Some (or_default fr0 0.02)) out.
Proof.
  destruct p_and_e as [| x rest]; [done |]. intros _. cbn [xaj_runoff_loop].
  rewrite (generation_defaults x um lm dm c b im wu0 wl0 wd0).
  destruct (generation x um lm dm c b im _ _ _)
    as [[[[[r rim] e] pe] [[wu wl] wd]] | err]; cbn [mbind res_bind fst snd];
    [| done].
  rewrite (sources_defaults pe r sm ex ki kg s0 fr0).
  by rewrite (sources5mm_defaults pe r sm ex ki kg s0 fr0).
Qed.

(** After its first step the second loop no longer reads the initial
    discharges. *)
Lemma xaj_route_loop_started (method : route_method) (ci cg : R)
    (qs0 qi0 qg0 qs0' qi0' qg0' : option R)
    (rss_route qs_ ris_ rgs_ : list R) (steps : list nat) :
  ∀ (prev : R * R * R) (Qs : list R),
    xaj_route_loop method ci cg qs0 qi0 qg0 rss_route qs_ ris_ rgs_
      steps (Some prev) Qs
    = xaj_route_loop method ci cg qs0' qi0' qg0' rss_route qs_ ris_ rgs_
        steps (Some prev) Qs.
Proof.
  induction steps as [| i rest IH]; intros [[qs qi] qg] Qs; [done |].
  cbn [xaj_route_loop].
  apply bind_ext. intros [[qs' qi'] qg']. apply IH.
Qed.

(** The second loop started from initial discharges [None] is the loop
    started from their default [0.01]. *)
Lemma xaj_route_loop_defaults (method : route_method) (ci cg : R)
    (qs0 qi0 qg0 : option R) (rss_route qs_ ris_ rgs_ : list R)
    (steps : list nat) (Qs : list R) :
  xaj_route_loop method ci cg qs0 qi0 qg0 rss_route qs_ ris_ rgs_
    steps None Qs
  = xaj_route_loop method ci cg (Some (or_default qs0 0.01))
      (Some (or_default qi0 0.01)) (Some (or_default qg0 0.01))
      rss_route qs_ ris_ rgs_ steps None Qs.
Proof.
  destruct steps as [| i rest]; [done |].
  cbn [xaj_route_loop or_default].
  apply bind_ext. intros [[qs' qi'] qg']. apply xaj_route_loop_started.
Qed.

Section InitialStates.

Variable s_curves2 : Z → R → R.

(** The run from given initial states depends on them only through their
    defaulted values. *)
Lemma xaj_states_defaults (p_and_e : list (R * R)) (params : gmap string R)
    (uh : option uh_arg) (source_type source_book : string)
    (b im um lm dm c sm ex ki kg ci cg : R)
    (states states' : option (gmap string (option R)))
    (wu0 wl0 wd0 s0 fr0 qs0 qi0 qg0 : option R) :
  has_params params b im um lm dm c sm ex ki kg ci cg →
  initial_states states = Ok (wu0, wl0, wd0, s0, fr0, qs0, qi0, qg0) →
  initial_states states'
    = Ok (Some (or_default wu0 (0.6 * um)), Some (or_default wl0 (0.6 * lm)),
          Some (or_default wd0 (0.6 * dm)), Some (or_default s0 (0.6 * sm)),
          Some (or_default fr0 0.02), Some (or_default qs0 0.01),
          Some (or_default qi0 0.01), Some (or_default qg0 0.01)) →
  xaj s_curves2 p_and_e params states uh source_type source_book
    = xaj s_curves2 p_and_e params states' uh source_type source_book.
Proof.
  intros Hparams Hst Hst'.
  rewrite !(xaj_read_params _ _ _ _ _ _ _ _ _ _ _ _ _ _ _ _ _ _ _ Hparams).
  rewrite Hst, Hst'.
  destruct (match uh with None => _ | Some _ => _ end) as [method | e];
    cbn [mbind res_bind]; [| done].
  destruct p_and_e as [| x rest]; [done |].
  rewrite xaj_runoff_loop_defaults by done.
  destruct (xaj_runoff_loop _ _ _ _ _ _ _ _ _ _ _ _ _ _ _ _)
    as [[[[[runoff_ims_ rss_] ris_] rgs_] final] | e];
    cbn [mbind res_bind]; [| done].
  case_bool_decide; [done |].
  apply xaj_route_loop_defaults.
Qed.

(** C4, amended: a mapping of initial states that lacks one of the eight
    keys makes the driver fail with a [KeyError] on an absent key; a
    mapping that holds the eight keys runs with the documented default for
    every key whose value is [None] and with the supplied value for every
    other key; and without a mapping the run uses the eight defaults. *)
Theorem xaj_initial_states_defaulting (p_and_e : list (R * R))
    (params : gmap string R) (d : gmap string (option R))
    (uh : option uh_arg) (source_type source_book : string)
    (b im um lm dm c sm ex ki kg ci cg : R) :
  has_params params b im um lm dm c sm ex ki kg ci cg →
  (uh = None → is_Some (params !! "CS")) →
  ((∃ key : string, key ∈ state_keys ∧ d !! key = None) →
   ∃ key : string,
     key ∈ state_keys ∧ d !! key = None
     ∧ xaj s_curves2 p_and_e params (Some d) uh source_type source_book
       = Raise (KeyError key))
  ∧ ((∀ key : string, key ∈ state_keys → is_Some (d !! key)) →
     xaj s_curves2 p_and_e params (Some d) uh source_type source_book
       = xaj s_curves2 p_and_e params
           (Some (with_defaults um lm dm sm d)) uh source_type source_book)
  ∧ xaj s_curves2 p_and_e params None uh source_type source_book
    = xaj s_curves2 p_and_e params
        (Some (with_defaults um lm dm sm ∅)) uh source_type source_book.
Proof.
  intros Hparams Hcs. split; [| split].
  - intros Hmiss.
    destruct (initial_states_missing d Hmiss) as (key & Hin & Hnone & Hst).
    exists key. split; [done |]. split; [done |].
    rewrite (xaj_read_params _ _ _ _ _ _ _ _ _ _ _ _ _ _ _ _ _ _ _ Hparams).
    rewrite Hst. destruct uh as [u |]; [done |].
    destruct (Hcs eq_refl) as [cs Hcs'].
    by rewrite (getitem_Some _ _ _ Hcs').
  - intros Hall.
    eapply xaj_states_defaults; [done | |].
    + by apply initial_states_present.
    + apply initial_states_with_defaults.
  - eapply xaj_states_defaults; [done | |].
    + reflexivity.
    + apply initial_states_with_defaults.
Qed.

End InitialStates.

(** C4, as stated, fails: a mapping that only holds ["WU0"] makes the
    driver fail on the absent key ["WL0"]. *)
Lemma xaj_absent_state_key_counterexample :
  xaj (fun _ _ => 0) [(10, 3); (0, 3); (30, 3)] example_params
    (Some {["WU0" := Some 12]}) None "sources" "ShuiWenYuBao"
    = Raise (KeyError "WL0").
Proof.
  rewrite (xaj_read_params _ _ _ _ _ _ _
             0.3 0.02 20 80 60 0.15 35 1.2 0.3 0.35 0.7 0.95)
    by (by repeat split).
  reflexivity.
Qed.

Lemma xaj_initial_states_defaulting_witness :
  has_params example_params 0.3 0.02 20 80 60 0.15 35 1.2 0.3 0.35 0.7 0.95
  ∧ (@None uh_arg = None → is_Some (example_params !! "CS"))
  ∧ ∃ key : string,
      key ∈ state_keys
      ∧ ({["WU0" := Some 12]} : gmap string (option R)) !! key = None
      ∧ xaj (fun _ _ => 0) [(10, 3); (0, 3); (30, 3)] example_params
          (Some {["WU0" := Some 12]}) None "sources" "ShuiWenYuBao"
        = Raise (KeyError key).
Proof.
  assert (Hparams : has_params example_params
                      0.3 0.02 20 80 60 0.15 35 1.2 0.3 0.35 0.7 0.95)
    by (by repeat split).
  assert (Hcs : @None uh_arg = None → is_Some (example_params !! "CS"))
    by (by intros _; eexists).
  split; [done |]. split; [done |].
  apply (proj1 (xaj_initial_states_defaulting (fun _ _ => 0)
                  [(10, 3); (0, 3); (30, 3)] example_params
                  {["WU0" := Some 12]} None "sources" "ShuiWenYuBao"
                  0.3 0.02 20 80 60 0.15 35 1.2 0.3 0.35 0.7 0.95
                  Hparams Hcs)).
  exists "WL0". split; [key_in | done].
Defined.

(** ** A run with saturated soil and a full tank *)

(** The generation step on saturated soil: all of the net rainfall runs
    off and the soil stays saturated. *)
Lemma generation_saturated :
  generation (4, 0) 20 80 60 0.15 0.3 0.02 (Some 20) (Some 80) (Some 60)
    = Ok ((4, 0.08, 0, 4), (20, 80, 60)).
Proof.
  assert (Hevap : calculate_evap 80 0.15 20 80 4 0 = Ok (0, 0, 0)).
  { unfold calculate_evap. by eval_real. }
  assert (Hrun : calculate_prcp_runoff 0.3 0.02 160 160 4 = Ok (4, 0.08)).
  { unfold calculate_prcp_runoff. eval_real.
    replace (1 - 160 / 160) with 0 by lra.
    rewrite power_zero by lra. eval_real. repeat f_equal; lra. }
  unfold generation. eval_real. rewrite Hevap. eval_real.
  replace (20 + 80 + 60) with 160 by lra.
  replace (4 - (0 + 0 + 0)) with 4 by lra.
  rewrite Hrun. eval_real.
  unfold calculate_w_storage. eval_real.
  repeat f_equal; lra.
Qed.

(** The coefficients of a time step of 24 hours are the daily ones. *)
Lemma period_coefficients_daily (ki kg : R) :
  0 < ki → 0 <= kg →
  period_coefficients ki kg 24 = Ok (ki, kg).
Proof.
  intros Hki Hkg. unfold period_coefficients, int_mod.
  rewrite (bool_decide_eq_false_2 (24%Z = 0%Z)) by done.
  cbn [mbind res_bind].
  change (24 `mod` 24)%Z with 0%Z.
  rewrite (bool_decide_eq_false_2 (0%Z ≠ 0%Z)) by (by intros H; apply H).
  rewrite (div_Ok 24 24) by lra. cbn [mbind res_bind].
  assert (Hint : py_int (24 / 24) = 1%Z).
  { unfold py_int. rewrite bool_decide_eq_true_2 by lra.
    apply Int_part_IZR. lra. }
  rewrite Hint. change (IZR (1 + 0)) with 1.
  rewrite (div_Ok 1 1) by lra. cbn [mbind res_bind].
  replace (1 / 1) with 1 by lra. rewrite power_one_any. cbn [mbind res_bind].
  assert (Hg : 0 <= kg / ki) by (apply quot_ge; lra).
  rewrite (div_Ok kg ki) by lra. cbn [mbind res_bind].
  rewrite (div_Ok _ (1 + kg / ki)) by lra. cbn [mbind res_bind].
  assert (Hkss : (1 - (1 - (ki + kg))) / (1 + kg / ki) = ki)
    by (field; lra).
  rewrite Hkss. rewrite (div_Ok _ ki) by lra. cbn [mbind res_bind].
  do 2 f_equal. field. lra.
Qed.

(** The sub-stepped partitioner on a time step of 24 hours and a runoff
    below 5 mm, from a given state. *)
Lemma sources5mm_daily_below_5 (pe runoff sm ex ki kg s0 fr0 : R)
    (book : string) :
  runoff < 5 → 0 < ki → 0 <= kg →
  sources5mm pe runoff sm ex ki kg (Some s0) (Some fr0) 24 book
    = (fr ← (if bool_decide (pe > 1e-5) then div runoff pe else Ok fr0);
       slice_update book sm ex (sm * (1 + ex)) pe runoff ki kg
         (np_clip fr 0.001 1) fr0 s0).
Proof.
  intros Hr Hki Hkg. unfold sources5mm.
  rewrite period_coefficients_daily by done. cbn [mbind res_bind or_default].
  apply bind_ext. intros fr.
  unfold slice_count. rewrite (bool_decide_eq_true_2 (runoff < 5)) by done.
  cbn [mbind res_bind].
  rewrite (div_Ok runoff 1), (div_Ok pe 1), (div_Ok 1 1) by lra.
  cbn [mbind res_bind].
  replace (1 / 1) with 1 by lra. rewrite power_one_any. cbn [mbind res_bind].
  assert (Hg : 0 <= kg / ki) by (apply quot_ge; lra).
  rewrite (div_Ok kg ki) by lra. cbn [mbind res_bind].
  rewrite (div_Ok _ (1 + kg / ki)) by lra. cbn [mbind res_bind].
  assert (Hkss : (1 - (1 - (ki + kg))) / (1 + kg / ki) = ki)
    by (field; lra).
  rewrite Hkss. rewrite (div_Ok _ ki) by lra. cbn [mbind res_bind].
  replace (ki * kg / ki) with kg by (field; lra).
  rewrite sources5mm_loop_single. unfold sources5mm_slice.
  rewrite (div_Ok 1 1) by lra. cbn [mbind res_bind].
  replace (1 / 1) with 1 by lra. rewrite power_one_any. cbn [mbind res_bind].
  replace (1 - (1 - np_clip fr 0.001 1)) with (np_clip fr 0.001 1) by lra.
  replace (runoff / 1) with runoff by lra.
  replace (pe / 1) with pe by lra.
  destruct (slice_update _ _ _ _ _ _ _ _ _ _ _)
    as [[[[rs rss] rg] [fr_d s_d]] | e]; cbn; [| done].
  by rewrite !Rplus_0_l.
Qed.

(** The first time step: the full tank releases [rss = 5] and [rg = 1],
    and the storage it keeps is [10 * (1 - 5 + 1) = -30]. *)
Lemma sources5mm_full_tank :
  sources5mm 4 4 10 1 0.5 0.1 (Some 10) (Some 1) 24 "ShuiWenYuBao"
    = Ok ((4, 5, 1), (1, -30)).
Proof.
  rewrite sources5mm_daily_below_5 by lra.
  eval_real. unfold slice_update. eval_real.
  match goal with
  | |- context [power ?x _] => replace x with 0 by lra
  end.
  rewrite power_zero by lra. eval_real.
  repeat f_equal; lra.
Qed.

(** The second time step: the driver passes the returned pair [(fr, s)] on
    to the parameters [(s0, fr0)], and the negative storage yields negative
    runoff components. *)
Lemma sources5mm_negative_tank :
  sources5mm 4 4 10 1 0.5 0.1 (Some 1) (Some (-30)) 24 "ShuiWenYuBao"
    = Ok ((-3.6, -11.2, -2.24), (1, -223.104)).
Proof.
  rewrite sources5mm_daily_below_5 by lra.
  eval_real. unfold slice_update. eval_real.
  rewrite power_pos by lra.
  rewrite (Rpower_half _ 2) by lra. eval_real.
  rewrite power_pos by lra.
  rewrite Rpower_two by lra. eval_real.
  repeat f_equal; lra.
Qed.

(** The same first time step by the formulation of the other book: the
    storage it keeps is the full tank less its two outflows,
    [10 - (5 + 1) = 4]. *)
Lemma sources5mm_full_tank_other_book :
  sources5mm 4 4 10 1 0.5 0.1 (Some 10) (Some 1) 24 "GongChengShuiWenXue"
    = Ok ((4, 5, 1), (1, 4)).
Proof.
  rewrite sources5mm_daily_below_5 by lra.
  eval_real. unfold slice_update. eval_real.
  replace (1 - 1) with 0 by lra. replace (1 / 1) with 1 by lra.
  rewrite power_zero by lra. eval_real.
  match goal with
  | |- context [power ?x _] => replace x with 0 by lra
  end.
  rewrite power_zero by lra. eval_real.
  repeat f_equal; lra.
Qed.

(** C2: the sub-stepped partitioner breaks the bound.  With valid
    parameters, an in-range initial state and the forcing
    [(4, 0); (4, 0)], the formulation of ["ShuiWenYuBao"] keeps
    [s_d * (1 - rss_j + rg_j)] (line 294) and leaves the storage
    [S = -30] after the first time step, and the discharge of the second
    time step is negative.  The formulation of the other book keeps the
    storage less its outflows, [4] at the same call, as the standard
    partitioner does. *)
Theorem xaj_negative_storage :
  xaj_runoff_loop 20 80 60 0.15 0.3 0.02 10 1 0.5 0.1
    "sources5mm" "ShuiWenYuBao" [(4, 0)]
    (Some 20, Some 80, Some 60) (Some 10, Some 1) ([], [], [], [])
    = Ok (([0.08], [4], [5], [1]),
          ((Some 20, Some 80, Some 60), (Some 1, Some (-30))))
  ∧ xaj (fun _ _ => 0) [(4, 0); (4, 0)] interflow_params
      (Some saturated_states) None "sources5mm" "ShuiWenYuBao"
    = Ok [5.2395; -5.161275]
  ∧ sources5mm 4 4 10 1 0.5 0.1 (Some 10) (Some 1) 24 "GongChengShuiWenXue"
    = Ok ((4, 5, 1), (1, 4)).
Proof.
  split; [| split; [| apply sources5mm_full_tank_other_book]].
  - cbn [xaj_runoff_loop]. rewrite generation_saturated.
    cbn [mbind res_bind fst snd].
    rewrite (bool_decide_eq_false_2 ("sources5mm" = "sources")) by done.
    rewrite (bool_decide_eq_true_2 ("sources5mm" = "sources5mm")) by done.
    rewrite sources5mm_full_tank. reflexivity.
  - rewrite (xaj_read_params _ _ _ _ _ _ _
               0.3 0.02 20 80 60 0.15 10 1 0.5 0.1 0.7 0.95)
      by (by repeat split).
    assert (Hcs : getitem interflow_params "CS" = Ok 0.1) by reflexivity.
    assert (Hst : initial_states (Some saturated_states)
                  = Ok (Some 20, Some 80, Some 60, Some 10, Some 1,
                        Some 0.01, Some 0.01, Some 0.01)) by reflexivity.
    rewrite Hcs, Hst. cbn [mbind res_bind xaj_runoff_loop].
    rewrite generation_saturated. cbn [mbind res_bind fst snd].
    rewrite (bool_decide_eq_false_2 ("sources5mm" = "sources")) by done.
    rewrite (bool_decide_eq_true_2 ("sources5mm" = "sources5mm")) by done.
    rewrite sources5mm_full_tank. cbn [mbind res_bind fst snd app].
    rewrite generation_saturated. cbn [mbind res_bind fst snd].
    rewrite sources5mm_negative_tank. cbn [mbind res_bind fst snd app].
    rewrite (bool_decide_eq_false_2 ([0.08; 0.08] = [])) by done.
    cbn. repeat f_equal; lra.
Qed.

(** * Further properties of the code *)

(** ** The evaporation and the net rainfall *)

(** On [(0, 1]] a power with an exponent of at least one grows no faster
    than its exponent times the base. *)
Lemma Rpower_slope (x y a : R) :
  0 < y → y <= x → x <= 1 → 1 <= a →
  Rpower x a - Rpower y a <= a * (x - y).
Proof.
  intros Hy [Hyx | <-] Hx Ha; [| lra].
  destruct (MVT_cor2 (fun t => Rpower t a) (fun t => a * Rpower t (a - 1))
              y x Hyx) as (t & Hdiff & Ht).
  { intros t Ht. apply derivable_pt_lim_power. lra. }
  rewrite Hdiff.
  assert (Hp : Rpower t (a - 1) <= 1) by (apply Rpower_le_1; lra).
  assert (Hz : 0 <= a * (x - y)) by nra.
  replace (a * Rpower t (a - 1) * (x - y))
    with (Rpower t (a - 1) * (a * (x - y))) by ring.
  rewrite <- (Rmult_1_l (a * (x - y))) at 2.
  by apply Rmult_le_compat_r.
Qed.

(** X1: with valid parameters, a lower layer within its capacity and a
    non-negative forcing, the three evaporations are non-negative, the
    upper one does not exceed the water at hand [wu0 + prcp], and their
    sum does not exceed the potential evapotranspiration; it equals it as
    soon as the upper layer meets the demand, and then the lower layers
    give nothing. *)
Theorem calculate_evap_within_potential (lm c wu0 wl0 prcp pet : R) :
  0 < lm → 0 <= c <= 1 → 0 <= wu0 → 0 <= wl0 <= lm →
  0 <= prcp → 0 <= pet →
  ∃ eu el ed : R,
    calculate_evap lm c wu0 wl0 prcp pet = Ok (eu, el, ed)
    ∧ 0 <= eu <= wu0 + prcp ∧ 0 <= el ∧ 0 <= ed
    ∧ eu + el + ed <= pet
    ∧ (wu0 + prcp >= pet → eu = pet ∧ el = 0 ∧ ed = 0).
Proof.
  intros Hlm Hc Hwu Hwl Hprcp Hpet. unfold calculate_evap.
  destruct (bool_decide_reflect (wu0 + prcp >= pet)) as [Hu | Hu].
  - rewrite (bool_decide_eq_false_2 (wl0 < c * (pet - pet))) by lra.
    rewrite andb_false_r. eexists _, _, _. split; [reflexivity |].
    repeat split; lra.
  - remember (pet - (wu0 + prcp)) as d eqn:Hdef.
    assert (Hd : 0 < d) by lra.
    destruct (bool_decide_reflect (wl0 >= c * lm)) as [Hl | Hl].
    + rewrite (bool_decide_eq_false_2 (wl0 < c * lm)) by lra.
      rewrite div_Ok by lra. eexists _, _, _. split; [reflexivity |].
      assert (0 <= d * wl0 / lm) by (apply quot_ge; [done | nra]).
      assert (d * wl0 / lm <= d) by (apply quot_le; [done | nra]).
      cbn [andb]. repeat split; lra.
    + rewrite (bool_decide_eq_true_2 (wl0 < c * lm)) by lra.
      destruct (bool_decide_reflect (wl0 >= c * d)) as [Hd' | Hd'].
      * rewrite (bool_decide_eq_false_2 (wl0 < c * d)) by lra.
        eexists _, _, _. split; [reflexivity |].
        cbn [andb]. repeat split; try lra; nra.
      * rewrite (bool_decide_eq_true_2 (wl0 < c * d)) by lra.
        eexists _, _, _. split; [reflexivity |].
        cbn [andb]. repeat split; try lra; nra.
Qed.

Lemma calculate_evap_within_potential_witness :
  0 < 80 ∧ 0 <= 0.15 <= 1 ∧ 0 <= 1 ∧ 0 <= 48 <= 80 ∧ 0 <= 0 ∧ 0 <= 3 ∧
  ∃ eu el ed : R,
    calculate_evap 80 0.15 1 48 0 3 = Ok (eu, el, ed)
    ∧ 0 <= eu <= 1 + 0 ∧ 0 <= el ∧ 0 <= ed
    ∧ eu + el + ed <= 3
    ∧ (1 + 0 >= 3 → eu = 3 ∧ el = 0 ∧ ed = 0).
Proof.
  repeat (split; [lra |]).
  apply (calculate_evap_within_potential 80 0.15 1 48 0 3); lra.
Defined.

(** ** The runoff of the pervious area *)

(** X2: with valid parameters, an antecedent moisture within
    [0 <= w0 <= wm] and a net rainfall [pe >= 0], the two floors of the
    runoff computation are inactive: [r_im] is [pe * IM], and the runoff
    [r] is the raw value of the capacity curve, which lies between
    [pe * IM] and [pe].  The soil takes up no more than its deficit,
    [pe - r <= wm - w0], and saturated soil takes up nothing. *)
Theorem calculate_prcp_runoff_floors_inactive (b im wm w0 pe : R) :
  0 < b → 0 <= im < 1 → 0 < wm → 0 <= w0 <= wm → 0 <= pe →
  ∃ r : R,
    calculate_prcp_runoff b im wm w0 pe = Ok (r, pe * im)
    ∧ pe * im <= r <= pe
    ∧ pe - r <= wm - w0
    ∧ (w0 = wm → r = pe).
Proof.
  intros Hb [Him0 Him1] Hwm [Hw0 Hw1] Hpe.
  assert (Hrim : np_maximum (pe * im) 0 = pe * im).
  { apply np_maximum_0_id. by apply Rmult_le_pos. }
  assert (Hpim : pe * im <= pe) by nra.
  unfold calculate_prcp_runoff.
  rewrite !div_Ok by lra. cbn [mbind res_bind].
  set (wmm := wm * (1 + b) / (1 - im)).
  assert (Hwmm : 0 < wmm).
  { unfold wmm. apply Rdiv_lt_0_compat; nra. }
  assert (Hwmm' : wmm * (1 - im) = wm * (1 + b)) by (unfold wmm; field; lra).
  assert (Hx1 : 0 <= w0 / wm) by (apply quot_ge; lra).
  assert (Hx2 : w0 / wm <= 1) by (apply quot_le; lra).
  assert (Hk : 0 < 1 / (1 + b)) by (apply Rdiv_lt_0_compat; lra).
  assert (Hcap : wm * (1 - w0 / wm) = wm - w0) by (field; lra).
  destruct (Rle_lt_or_eq_dec _ _ Hx2) as [Hx | Hx].
  - (* the soil is not saturated *)
    rewrite power_pos by lra. cbn [mbind res_bind].
    set (q := Rpower (1 - w0 / wm) (1 / (1 + b))).
    assert (Hq : 0 < q) by apply Rpower_gt_0.
    assert (Hq1 : q <= 1) by (apply Rpower_le_1; lra).
    assert (Hqb : Rpower q (1 + b) = 1 - w0 / wm).
    { unfold q. apply Rpower_root; lra. }
    assert (Hqq : Rpower q (1 + b) <= q).
    { rewrite Rpower_plus, Rpower_1 by done.
      assert (Rpower q b <= 1) by (apply Rpower_le_1; lra).
      pose proof (Rpower_gt_0 q b). nra. }
    case_bool_decide as Hbr.
    + assert (Hy : 1 - (wmm * (1 - q) + pe) / wmm = q - pe / wmm)
        by (field; lra).
      rewrite div_Ok by lra. cbn [mbind res_bind]. rewrite Hy.
      assert (Hd : 0 <= pe / wmm) by (apply quot_ge; lra).
      assert (Hbase : 0 < q - pe / wmm).
      { assert (pe / wmm < q) by (apply quot_lt; [done | nra]). lra. }
      rewrite power_pos by done. cbn [mbind res_bind].
      set (q' := Rpower (q - pe / wmm) (1 + b)).
      assert (Hq' : 0 < q') by apply Rpower_gt_0.
      assert (Hslope : Rpower q (1 + b) - q' <= (1 + b) * (pe / wmm)).
      { unfold q'.
        replace (pe / wmm) with (q - (q - pe / wmm)) at 2 by lra.
        apply Rpower_slope; lra. }
      assert (Hle : q' <= Rpower q (1 + b)).
      { unfold q'. apply Rle_Rpower_l; lra. }
      assert (Hdw : wm * (1 + b) * (pe / wmm) = pe * (1 - im)).
      { rewrite <- Hwmm'. field. lra. }
      assert (Hgain : wm * (Rpower q (1 + b) - q') <= pe * (1 - im)).
      { rewrite <- Hdw. rewrite Rmult_assoc.
        apply Rmult_le_compat_l; lra. }
      assert (Hraw : pe * im <= pe - (wm - w0) + wm * q').
      { rewrite <- Hcap, <- Hqb. lra. }
      exists (pe - (wm - w0) + wm * q').
      rewrite Hrim, np_maximum_0_id by nra.
      split; [done |]. rewrite Hqb in Hle.
      repeat split; try lra; nra.
    + assert (Hfull : wmm * q <= pe) by lra.
      assert (Hdef : wm - w0 <= pe * (1 - im)).
      { rewrite <- Hcap, <- Hqb.
        assert (wm * q * (1 + b) <= pe * (1 - im)).
        { replace (wm * q * (1 + b)) with (wmm * q * (1 - im))
            by (rewrite (Rmult_comm wmm q), Rmult_assoc, Hwmm'; ring).
          apply Rmult_le_compat_r; lra. }
        assert (wm * Rpower q (1 + b) <= wm * q)
          by (apply Rmult_le_compat_l; lra).
        assert (0 <= wm * q * b)
          by (repeat apply Rmult_le_pos; lra).
        lra. }
      cbn [mbind res_bind]. exists (pe - (wm - w0)).
      rewrite Hrim, np_maximum_0_id by nra.
      split; [done |]. repeat split; lra.
  - (* the soil is saturated *)
    assert (Hsat : w0 = wm) by (by apply Rdiv_diag_uniq).
    rewrite Hx. replace (1 - 1) with 0 by lra.
    rewrite power_zero by done. cbn [mbind res_bind].
    rewrite (bool_decide_eq_false_2 (pe + wmm * (1 - 0) < wmm)) by lra.
    cbn [mbind res_bind]. exists (pe - (wm - w0)).
    rewrite Hrim, np_maximum_0_id by lra.
    split; [done |]. repeat split; lra.
Qed.

Lemma calculate_prcp_runoff_floors_inactive_witness :
  0 < 0.3 ∧ 0 <= 0.02 < 1 ∧ 0 < 160 ∧ 0 <= 96 <= 160 ∧ 0 <= 7 ∧
  ∃ r : R,
    calculate_prcp_runoff 0.3 0.02 160 96 7 = Ok (r, 7 * 0.02)
    ∧ 7 * 0.02 <= r <= 7
    ∧ 7 - r <= 160 - 96
    ∧ (96 = 160 → r = 7).
Proof.
  repeat (split; [lra |]).
  apply (calculate_prcp_runoff_floors_inactive 0.3 0.02 160 96 7); lra.
Defined.

(** The evaporation when the upper layer meets the demand. *)
Lemma calculate_evap_met (lm c wu0 wl0 prcp pet : R) :
  wu0 + prcp >= pet → 0 <= wl0 →
  calculate_evap lm c wu0 wl0 prcp pet = Ok (pet, 0, 0).
Proof.
  intros Hu Hwl. unfold calculate_evap.
  rewrite (bool_decide_eq_true_2 (wu0 + prcp >= pet)) by done.
  rewrite (bool_decide_eq_false_2 (wl0 < c * (pet - pet))) by lra.
  by rewrite andb_false_r.
Qed.

(** A value clipped from below at zero does not exceed a non-negative
    bound of the value. *)
Lemma np_clip_le (x y hi : R) : x <= y → 0 <= y → np_clip x 0 hi <= y.
Proof.
  intros Hx Hy. unfold np_clip.
  apply Rle_trans with (Rmax x 0); [apply Rmin_r |]. by apply Rmax_lub.
Qed.

(** X3: with valid parameters, an in-range prior state and a non-negative
    forcing, the net rainfall of the generation step is
    [max (prcp - pet) 0].  When the rainfall exceeds the potential
    evapotranspiration, the evaporation is the potential one; otherwise
    there is no runoff at all and no soil layer gains water. *)
Theorem generation_net_rainfall
    (um lm dm c b im wu0 wl0 wd0 prcp pet : R) :
  0 < um → 0 < lm → 0 < dm → 0 <= c <= 1 → 0 < b → 0 <= im < 1 →
  0 <= wu0 <= um → 0 <= wl0 <= lm → 0 <= wd0 <= dm →
  0 <= prcp → 0 <= pet →
  ∃ r rim e wu wl wd : R,
    generation (prcp, pet) um lm dm c b im (Some wu0) (Some wl0) (Some wd0)
      = Ok ((r, rim, e, Rmax (prcp - pet) 0), (wu, wl, wd))
    ∧ (pet < prcp → e = pet)
    ∧ (prcp <= pet →
       r = 0 ∧ rim = 0 ∧ wu <= wu0 ∧ wl <= wl0 ∧ wd <= wd0).
Proof.
  intros Hum Hlm Hdm Hc Hb Him Hwu Hwl Hwd Hprcp Hpet.
  destruct (generation_cases (prcp, pet) um lm dm c b im
              (Some wu0) (Some wl0) (Some wd0))
    as (eu & el & ed & r_cal & Hevap & Hgen & _ & Hzero); try lra.
  cbn [fst snd or_default] in Hevap, Hgen, Hzero.
  assert (Hp : np_maximum prcp 0 = prcp) by (by apply np_maximum_0_id).
  assert (Hpt : np_maximum pet 0 = pet) by (by apply np_maximum_0_id).
  rewrite Hp, Hpt in Hevap. rewrite Hp in Hgen, Hzero.
  destruct (calculate_w_storage um lm dm wu0 wl0 wd0 eu el ed
              (np_maximum (prcp - (eu + el + ed)) 0) (np_maximum r_cal 0))
    as [[wu wl] wd] eqn:Hsto.
  destruct (Rlt_le_dec pet prcp) as [Hwet | Hdry].
  - (* the rainfall exceeds the demand, which the upper layer meets *)
    rewrite calculate_evap_met in Hevap by lra.
    injection Hevap as <- <- <-.
    replace (pet + 0 + 0) with pet in * by lra.
    eexists _, _, _, wu, wl, wd. split; [exact Hgen |]. split; lra.
  - (* the evaporation takes all of the rainfall *)
    destruct (calculate_evap_Ok lm c wu0 wl0 prcp pet Hlm)
      as (eu' & el' & ed' & Hevap' & Hpos).
    rewrite Hevap in Hevap'. injection Hevap' as <- <- <-.
    destruct Hpos as (Heu & Hel & Hed); try lra.
    assert (He : prcp <= eu + el + ed).
    { destruct (Rge_dec (wu0 + prcp) pet) as [Hu | Hu].
      - rewrite calculate_evap_met in Hevap by lra.
        injection Hevap as <- <- <-. lra.
      - unfold calculate_evap in Hevap.
        rewrite (bool_decide_eq_false_2 (wu0 + prcp >= pet)) in Hevap by done.
        apply bind_Ok_inv in Hevap as (el' & _ & [= <- _ _]). lra. }
    assert (Hpe : np_maximum (prcp - (eu + el + ed)) 0 = 0).
    { unfold np_maximum. apply Rmax_right. lra. }
    rewrite Hpe in *. rewrite Hzero in * by done.
    assert (Hmax0 : np_maximum 0 0 = 0) by (apply np_maximum_0_id; lra).
    rewrite Rmult_0_l, Hmax0 in Hgen. rewrite Hmax0 in Hsto.
    rewrite calculate_w_storage_dry in Hsto by lra.
    injection Hsto as <- <- <-.
    exists 0, 0, (eu + el + ed), (np_clip (wu0 - eu) 0 um),
      (np_clip (wl0 - el) 0 lm), (np_clip (wd0 - ed) 0 dm).
    replace (Rmax (prcp - pet) 0) with 0 by (rewrite Rmax_right; lra).
    split; [exact Hgen |]. split; [lra |]. intros _.
    repeat split; try done; apply np_clip_le; lra.
Qed.

Lemma generation_net_rainfall_witness :
  0 < 20 ∧ 0 < 80 ∧ 0 < 60 ∧ 0 <= 0.15 <= 1 ∧ 0 < 0.3 ∧ 0 <= 0.02 < 1 ∧
  0 <= 12 <= 20 ∧ 0 <= 48 <= 80 ∧ 0 <= 36 <= 60 ∧ 0 <= 10 ∧ 0 <= 3 ∧
  ∃ r rim e wu wl wd : R,
    generation (10, 3) 20 80 60 0.15 0.3 0.02 (Some 12) (Some 48) (Some 36)
      = Ok ((r, rim, e, Rmax (10 - 3) 0), (wu, wl, wd))
    ∧ (3 < 10 → e = 3)
    ∧ (10 <= 3 → r = 0 ∧ rim = 0 ∧ wu <= 12 ∧ wl <= 48 ∧ wd <= 36).
Proof.
  repeat (split; [lra |]).
  apply (generation_net_rainfall 20 80 60 0.15 0.3 0.02 12 48 36 10 3); lra.
Defined.

(** ** The storage update *)

(** X4: from a prior state within the capacities ([0 <= wu0 <= um],
    [0 <= wl0 <= lm], [0 <= wd0 <= dm]), when the storage update finds a
    positive net rainfall [p - e], an upper layer that is not driven below
    zero and a total that stays below the capacity, it fills the layers
    from the top: the lower layer keeps
    its moisture unless the upper one is full, the deep layer keeps its
    moisture unless the lower one is full, and neither of them loses
    water. *)
Theorem calculate_w_storage_fills_top_down
    (um lm dm wu0 wl0 wd0 eu el ed p r wu wl wd : R) :
  0 <= wu0 <= um → 0 <= wl0 <= lm → 0 <= wd0 <= dm →
  0 < p - (eu + el + ed) →
  0 <= wu0 + (p - (eu + el + ed)) - r →
  wu0 + wl0 + wd0 + (p - (eu + el + ed)) - r <= um + lm + dm →
  calculate_w_storage um lm dm wu0 wl0 wd0 eu el ed p r = (wu, wl, wd) →
  (wu < um → wl = wl0 ∧ wd = wd0)
  ∧ (wl < lm → wd = wd0)
  ∧ wl0 <= wl ∧ wd0 <= wd.
Proof.
  intros Hwu Hwl Hwd Hwet Hup Hcap. unfold calculate_w_storage.
  assert (np_maximum (p - (eu + el + ed)) 0 = p - (eu + el + ed)) as ->.
  { apply np_maximum_0_id. lra. }
  remember (p - (eu + el + ed)) as pe eqn:Hpe.
  rewrite (bool_decide_eq_true_2 (pe > 0)) by lra.
  intros [= <- <- <-].
  destruct (bool_decide_reflect (wu0 + pe - r < um)) as [Hu | Hu];
    destruct (bool_decide_reflect (wu0 + wl0 + pe - r > um + lm)) as [Hd | Hd];
    rewrite !np_clip_id by lra; repeat split; lra.
Qed.

Lemma calculate_w_storage_fills_top_down_witness :
  0 <= 12 <= 20 ∧ 0 <= 48 <= 80 ∧ 0 <= 36 <= 60 ∧
  0 < 10 - (3 + 0 + 0) ∧ 0 <= 12 + (10 - (3 + 0 + 0)) - 2 ∧
  12 + 48 + 36 + (10 - (3 + 0 + 0)) - 2 <= 20 + 80 + 60 ∧
  calculate_w_storage 20 80 60 12 48 36 3 0 0 10 2 = (17, 48, 36) ∧
  (17 < 20 → 48 = 48 ∧ 36 = 36) ∧ (48 < 80 → 36 = 36)
  ∧ 48 <= 48 ∧ 36 <= 36.
Proof.
  assert (Hsto : calculate_w_storage 20 80 60 12 48 36 3 0 0 10 2
                 = (17, 48, 36)).
  { unfold calculate_w_storage. eval_real. repeat f_equal; lra. }
  repeat (split; [lra |]). split; [done |].
  apply (calculate_w_storage_fills_top_down 20 80 60 12 48 36 3 0 0 10 2
           17 48 36); (done || lra).
Defined.

(** ** The standard source partitioner on a wet time step *)

(** X5: on a time step with [pe >= 1e-5] and a runoff [r > 0], with valid
    tank parameters and a prior free water [fr0 * s0] that is not negative
    and fits in the tank over the new runoff area [fr = r / pe], the
    standard partitioner returns, none of its floors is active, the
    storage it keeps lies within [0, SM * (1 - KI - KG)], and the water
    is conserved: [rs + ri + rg + fr * s1 = fr0 * s0 + r]. *)
Theorem sources_wet_step_balance (pe r sm ex ki kg s0 fr0 : R) :
  1e-5 <= pe → 0 < r → 0 < sm → 0 < ex →
  0 <= ki → 0 <= kg → ki + kg <= 1 →
  0 <= fr0 * s0 <= sm * (r / pe) →
  ∃ rs ri rg s1 : R,
    sources pe r sm ex ki kg (Some s0) (Some fr0)
      = Ok ((rs, ri, rg), (r / pe, s1))
    ∧ 0 <= rs ∧ 0 <= ri ∧ 0 <= rg
    ∧ 0 <= s1 <= sm * (1 - ki - kg)
    ∧ rs + ri + rg + r / pe * s1 = fr0 * s0 + r.
Proof.
  intros Hpe Hr Hsm Hex Hki Hkg Hsum Hfree.
  assert (Hms : 0 < sm * (1 + ex)) by nra.
  assert (Hfr : 0 < r / pe) by (apply Rdiv_lt_0_compat; lra).
  assert (Hrfr : r / (r / pe) = pe) by (field; lra).
  unfold sources. cbn [or_default].
  rewrite (bool_decide_eq_false_2 (pe < 1e-5)) by lra.
  rewrite (div_Ok r pe) by lra. cbn [mbind res_bind].
  remember (r / pe) as fr eqn:Hfrdef.
  remember (fr0 * s0 / fr) as t eqn:Htdef.
  assert (Ht : 0 <= t <= sm).
  { subst t. split; [apply quot_ge | apply quot_le]; lra. }
  assert (Htfr : fr * t = fr0 * s0) by (subst t; field; lra).
  rewrite (div_Ok (fr0 * s0) fr) by lra. cbn [mbind res_bind].
  rewrite <- Htdef.
  rewrite (div_Ok t sm), (div_Ok 1 (1 + ex)) by lra. cbn [mbind res_bind].
  assert (Hx : 0 <= 1 - t / sm <= 1).
  { assert (t / sm <= 1) by (apply quot_le; lra).
    assert (0 <= t / sm) by (apply quot_ge; lra). lra. }
  assert (Hk : 0 < 1 / (1 + ex)) by (apply Rdiv_lt_0_compat; lra).
  assert (Hcap : sm * (1 - t / sm) = sm - t) by (field; lra).
  destruct (power_unit_interval (1 - t / sm) (1 / (1 + ex)) Hx Hk)
    as (q & Hq & Hq01 & Hqpos).
  rewrite (power_nan_Ok _ _ _ Hq). cbn [mbind res_bind].
  remember (sm * (1 + ex)) as ms eqn:Hmsdef.
  assert (Hfinish : ∀ rs_raw s : R,
            0 <= rs_raw → 0 <= s <= sm → rs_raw + fr * s = fr0 * s0 + r →
            t + (r - rs_raw) / fr = s →
            ∃ rs ri rg s1 : R,
              Ok (np_maximum rs_raw 0,
                  np_maximum (ki * (t + (r - rs_raw) / fr) * fr) 0,
                  np_maximum (kg * (t + (r - rs_raw) / fr) * fr) 0,
                  (fr, (t + (r - rs_raw) / fr) * (1 - ki - kg)))
                = Ok (rs, ri, rg, (fr, s1))
              ∧ 0 <= rs ∧ 0 <= ri ∧ 0 <= rg
              ∧ 0 <= s1 <= sm * (1 - ki - kg)
              ∧ rs + ri + rg + fr * s1 = fr0 * s0 + r).
  { intros rs_raw s Hrs Hs Hbal ->.
    assert (0 <= ki * s * fr) by (repeat apply Rmult_le_pos; lra).
    assert (0 <= kg * s * fr) by (repeat apply Rmult_le_pos; lra).
    rewrite !np_maximum_0_id by done.
    eexists _, _, _, _. split; [reflexivity |].
    repeat split; try done; try nra;
      first [apply Rmult_le_pos; lra | apply Rmult_le_compat_r; lra]. }
  case_bool_decide as Hbr.
  - (* the tank does not overflow everywhere *)
    rewrite (div_Ok (pe + ms * (1 - q)) ms) by lra.
    cbn [mbind res_bind].
    assert (Hy : 1 - (pe + ms * (1 - q)) / ms = q - pe / ms) by (field; lra).
    rewrite Hy.
    assert (Hd : 0 < pe / ms) by (apply Rdiv_lt_0_compat; lra).
    assert (Hbase : 0 < q - pe / ms).
    { assert (pe / ms < q) by (apply quot_lt; [done | nra]). lra. }
    rewrite power_pos by done. cbn [mbind res_bind].
    replace (ex + 1) with (1 + ex) by lra.
    remember (Rpower (q - pe / ms) (1 + ex)) as q' eqn:Hq'def.
    assert (Hq'0 : 0 < q') by (subst q'; apply Rpower_gt_0).
    assert (Hxpos : 0 < 1 - t / sm).
    { destruct Hx as [[Hx | Hx] _]; [done |].
      rewrite <- Hx in Hq. rewrite power_zero in Hq by done.
      injection Hq as <-. lra. }
    rewrite (Hqpos Hxpos) in *.
    remember (Rpower (1 - t / sm) (1 / (1 + ex))) as q0 eqn:Hq0def.
    assert (Hqb : Rpower q0 (1 + ex) = 1 - t / sm).
    { subst q0. apply Rpower_root; lra. }
    assert (Hslope : Rpower q0 (1 + ex) - q' <= (1 + ex) * (pe / ms)).
    { subst q'. replace (pe / ms) with (q0 - (q0 - pe / ms)) at 2 by lra.
      apply Rpower_slope; lra. }
    assert (Hle : q' <= Rpower q0 (1 + ex)).
    { subst q'. apply Rle_Rpower_l; lra. }
    assert (Hdw : sm * ((1 + ex) * (pe / ms)) = pe) by (subst ms; field; lra).
    assert (Hgain : sm * (Rpower q0 (1 + ex) - q') <= pe).
    { apply Rle_trans with (sm * ((1 + ex) * (pe / ms))); [| lra].
      apply Rmult_le_compat_l; lra. }
    rewrite Hqb in Hgain, Hle.
    assert (Hraw : 0 <= pe + t - sm + sm * q') by lra.
    rewrite (div_Ok _ fr) by lra. cbn [mbind res_bind].
    apply (Hfinish _ (sm * (1 - q'))).
    + apply Rmult_le_pos; lra.
    + split; [apply Rmult_le_pos; lra |]. nra.
    + assert (fr * pe = r) by (subst fr; field; lra). nra.
    + rewrite Rdiv_minus_distr, Hrfr. field. lra.
  - (* the tank overflows everywhere *)
    cbn [mbind res_bind].
    assert (Hraw : 0 <= pe + t - sm).
    { destruct Hx as [[Hx | Hx] _].
      - rewrite (Hqpos Hx) in *.
        remember (Rpower (1 - t / sm) (1 / (1 + ex))) as q0 eqn:Hq0def.
        assert (Hq0 : 0 < q0) by (subst q0; apply Rpower_gt_0).
        assert (Hqb : Rpower q0 (1 + ex) = 1 - t / sm).
        { subst q0. apply Rpower_root; lra. }
        assert (Hqq : Rpower q0 (1 + ex) <= q0).
        { rewrite Rpower_plus, Rpower_1 by done.
          assert (Rpower q0 ex <= 1) by (apply Rpower_le_1; lra).
          pose proof (Rpower_gt_0 q0 ex). nra. }
        assert (sm * q0 <= ms * q0).
        { apply Rmult_le_compat_r; [lra |]. subst ms. nra. }
        assert (sm * Rpower q0 (1 + ex) <= sm * q0)
          by (apply Rmult_le_compat_l; lra).
        rewrite Hqb, Hcap in *. lra.
      - assert (t / sm = 1) as H1 by lra.
        apply Rdiv_diag_uniq in H1. lra. }
    rewrite (div_Ok _ fr) by lra. cbn [mbind res_bind].
    apply (Hfinish _ sm).
    + apply Rmult_le_pos; lra.
    + lra.
    + assert (fr * pe = r) by (subst fr; field; lra). nra.
    + rewrite Rdiv_minus_distr, Hrfr. field. lra.
Qed.

Lemma sources_wet_step_balance_witness :
  1e-5 <= 7 ∧ 0 < 3 ∧ 0 < 35 ∧ 0 < 1.2 ∧ 0 <= 0.3 ∧ 0 <= 0.35 ∧
  0.3 + 0.35 <= 1 ∧ 0 <= 0.02 * 21 <= 35 * (3 / 7) ∧
  ∃ rs ri rg s1 : R,
    sources 7 3 35 1.2 0.3 0.35 (Some 21) (Some 0.02)
      = Ok ((rs, ri, rg), (3 / 7, s1))
    ∧ 0 <= rs ∧ 0 <= ri ∧ 0 <= rg
    ∧ 0 <= s1 <= 35 * (1 - 0.3 - 0.35)
    ∧ rs + ri + rg + 3 / 7 * s1 = 0.02 * 21 + 3.
Proof.
  repeat (split; [lra |]).
  apply (sources_wet_step_balance 7 3 35 1.2 0.3 0.35 21 0.02); lra.
Defined.

(** ** The coefficients of the time step *)

(** The integer part of a quotient of two integers. *)
Lemma py_int_quotient (x y : Z) :
  (0 <= x)%Z → (0 < y)%Z → py_int (IZR x / IZR y) = (x / y)%Z.
Proof.
  intros Hx Hy.
  assert (HyR : 0 < IZR y) by (by apply IZR_lt).
  assert (HxR : 0 <= IZR x) by (by apply IZR_le).
  unfold py_int. rewrite bool_decide_eq_true_2 by (by apply quot_ge; lra).
  symmetry. apply Int_part_spec.
  pose proof (Z.mul_div_le x y Hy) as Hle.
  pose proof (Z.mul_succ_div_gt x y Hy) as Hgt.
  apply IZR_le in Hle. apply IZR_lt in Hgt.
  rewrite mult_IZR in Hle. rewrite mult_IZR, succ_IZR in Hgt.
  split.
  - assert (IZR x / IZR y < IZR (x / y) + 1)
      by (apply quot_lt; [done | lra]).
    lra.
  - apply quot_ge; [done | lra].
Qed.

(** The number of time steps in a day is the least one that covers the 24
    hours. *)
Lemma period_num_1d_covers (time_interval_hours : Z) :
  (0 < time_interval_hours)%Z →
  ((period_num_1d time_interval_hours - 1) * time_interval_hours < 24
   ∧ 24 <= period_num_1d time_interval_hours * time_interval_hours)%Z.
Proof.
  intros Ht. unfold period_num_1d.
  rewrite py_int_quotient by lia.
  pose proof (Z.div_mod 24 time_interval_hours ltac:(lia)) as Hdm.
  pose proof (Z.mod_pos_bound 24 time_interval_hours Ht) as Hmod.
  case_bool_decide; nia.
Qed.

(** A power of a base within [(0, 1]] decreases with its exponent. *)
Lemma Rpower_antitone (x a b : R) :
  0 < x <= 1 → a <= b → Rpower x b <= Rpower x a.
Proof.
  intros Hx Hab. replace b with (a + (b - a)) by lra.
  rewrite Rpower_plus.
  assert (Rpower x (b - a) <= 1) by (apply Rpower_le_1; lra).
  pose proof (Rpower_gt_0 x a). pose proof (Rpower_gt_0 x (b - a)). nra.
Qed.

(** X6: for a positive [time_interval_hours] and valid daily coefficients
    the conversion returns positive [kss_period] and non-negative
    [kg_period] in the ratio [KG / KI], not above the daily ones, and
    compounding them over the time steps of a day gives the daily outflow
    back: [(1 - (kss_period + kg_period)) ^ period_num_1d = 1 - (KI + KG)].
    The number of time steps is the least one that covers 24 hours. *)
Theorem period_coefficients_compound (ki kg : R) (time_interval_hours : Z) :
  (0 < time_interval_hours)%Z → 0 < ki → 0 <= kg → ki + kg < 1 →
  ∃ kss_period kg_period : R,
    period_coefficients ki kg time_interval_hours
      = Ok (kss_period, kg_period)
    ∧ 0 < kss_period ∧ 0 <= kg_period
    ∧ kg_period * ki = kss_period * kg
    ∧ kss_period + kg_period <= ki + kg
    ∧ Rpower (1 - (kss_period + kg_period))
        (IZR (period_num_1d time_interval_hours)) = 1 - (ki + kg)
    ∧ ((period_num_1d time_interval_hours - 1) * time_interval_hours < 24
       ∧ 24 <= period_num_1d time_interval_hours * time_interval_hours)%Z.
Proof.
  intros Ht Hki Hkg Hsum.
  pose proof (period_num_1d_covers _ Ht) as Hcover.
  assert (Hn : (1 <= period_num_1d time_interval_hours)%Z) by nia.
  unfold period_coefficients, int_mod.
  rewrite (bool_decide_eq_false_2 (time_interval_hours = 0%Z)) by lia.
  cbn [mbind res_bind].
  rewrite (div_Ok (IZR 24) (IZR time_interval_hours))
    by (apply not_0_IZR; lia).
  cbn [mbind res_bind]. fold (period_num_1d time_interval_hours).
  remember (IZR (period_num_1d time_interval_hours)) as n eqn:Hndef.
  assert (HnR : 1 <= n) by (subst n; by apply IZR_le).
  rewrite (div_Ok 1 n) by lra. cbn [mbind res_bind].
  rewrite power_pos by lra. cbn [mbind res_bind].
  assert (Hg : 0 <= kg / ki) by (apply quot_ge; lra).
  rewrite (div_Ok kg ki) by lra. cbn [mbind res_bind].
  rewrite (div_Ok _ (1 + kg / ki)) by lra. cbn [mbind res_bind].
  rewrite (div_Ok _ ki) by lra. cbn [mbind res_bind].
  remember (Rpower (1 - (ki + kg)) (1 / n)) as p eqn:Hpdef.
  assert (Hp0 : 0 < p) by (subst p; apply Rpower_gt_0).
  assert (Hp1 : p < 1).
  { assert (p <= 1) by (subst p; apply Rpower_le_1;
                         [lra | apply quot_ge; lra]).
    assert (p ≠ 1).
    { subst p. apply Rpower_neq_1; [lra |].
      unfold Rdiv. rewrite Rmult_1_l. apply Rinv_neq_0_compat. lra. }
    lra. }
  assert (Hp2 : 1 - (ki + kg) <= p).
  { subst p. rewrite <- (Rpower_1 (1 - (ki + kg))) at 1 by lra.
    apply Rpower_antitone; [lra |]. apply quot_le; lra. }
  assert (Hkss : 0 < (1 - p) / (1 + kg / ki))
    by (apply Rdiv_lt_0_compat; lra).
  assert (Hsumc : (1 - p) / (1 + kg / ki)
                  + (1 - p) / (1 + kg / ki) * kg / ki = 1 - p)
    by (field; split; [lra |]; lra).
  eexists _, _. split; [reflexivity |].
  split; [done |]. split.
  { apply quot_ge; [done |]. rewrite Rmult_0_l.
    apply Rmult_le_pos; lra. }
  split; [field; lra |].
  split; [lra |]. split; [| done].
  rewrite Hsumc. replace (1 - (1 - p)) with p by lra.
  subst p. apply Rpower_root; lra.
Qed.

Lemma period_coefficients_compound_witness :
  (0 < 6)%Z ∧ 0 < 0.3 ∧ 0 <= 0.35 ∧ 0.3 + 0.35 < 1 ∧
  ∃ kss_period kg_period : R,
    period_coefficients 0.3 0.35 6 = Ok (kss_period, kg_period)
    ∧ 0 < kss_period ∧ 0 <= kg_period
    ∧ kg_period * 0.3 = kss_period * 0.35
    ∧ kss_period + kg_period <= 0.3 + 0.35
    ∧ Rpower (1 - (kss_period + kg_period)) (IZR (period_num_1d 6))
      = 1 - (0.3 + 0.35)
    ∧ ((period_num_1d 6 - 1) * 6 < 24 ∧ 24 <= period_num_1d 6 * 6)%Z.
Proof.
  split; [lia |]. repeat (split; [lra |]).
  apply (period_coefficients_compound 0.3 0.35 6); (lia || lra).
Defined.

(** ** The slices of the sub-stepped partitioner *)

(** The integer part of a real that is at least one. *)
Lemma Int_part_ge_1 (x : R) : 1 <= x → (1 <= Int_part x)%Z.
Proof.
  intros Hx. destruct (base_Int_part x) as [_ Hlow].
  assert (0 < IZR (Int_part x)) by lra.
  apply lt_IZR in H. lia.
Qed.

(** X7: whenever the number of slices [n] is an integer, it is at least
    one and every slice carries less than 5 mm of runoff; from 5 mm on,
    [n] is the least such number. *)
Theorem slice_count_below_5mm (runoff : R) (n : Z) :
  slice_count runoff = Ok (n, true) →
  (1 <= n)%Z ∧ runoff / IZR n < 5 ∧ (5 <= runoff → 5 * IZR (n - 1) < runoff).
Proof.
  unfold slice_count. case_bool_decide as Hr.
  - intros [= <-]. split; [lia |]. split; lra.
  - unfold float_mod. rewrite (bool_decide_eq_false_2 (5 = 0)) by lra.
    cbn [mbind res_bind]. rewrite (div_Ok runoff 5) by lra.
    cbn [mbind res_bind].
    assert (Hx : 1 <= runoff / 5) by (apply quot_ge; lra).
    assert (Hint : py_int (runoff / 5) = Int_part (runoff / 5)).
    { unfold py_int. by rewrite bool_decide_eq_true_2 by lra. }
    rewrite Hint. destruct (base_Int_part (runoff / 5)) as [Hup Hlow].
    pose proof (Int_part_ge_1 _ Hx) as Hge.
    case_bool_decide as Hres; [| discriminate].
    intros [= <-]. split; [lia |].
    replace (Int_part (runoff / 5) + 1 - 1)%Z with (Int_part (runoff / 5))
      by lia.
    rewrite plus_IZR. apply IZR_le in Hge. split.
    + apply quot_lt; lra.
    + intros _. lra.
Qed.

(** A runoff of 12 mm is cut into three slices. *)
Lemma slice_count_12 : slice_count 12 = Ok (3%Z, true).
Proof.
  assert (Hint : Int_part (12 / 5) = 2%Z).
  { destruct (base_Int_part (12 / 5)) as [Hup Hlow].
    assert (H1 : (1 < Int_part (12 / 5))%Z) by (apply lt_IZR; lra).
    assert (H2 : (Int_part (12 / 5) < 3)%Z) by (apply lt_IZR; lra).
    lia. }
  unfold slice_count, float_mod.
  rewrite (bool_decide_eq_false_2 (12 < 5)) by lra.
  rewrite (bool_decide_eq_false_2 (5 = 0)) by lra.
  cbn [mbind res_bind]. rewrite (div_Ok 12 5) by lra. cbn [mbind res_bind].
  unfold py_int. rewrite (bool_decide_eq_true_2 (0 <= 12 / 5)) by lra.
  rewrite Hint. by rewrite bool_decide_eq_true_2 by lra.
Qed.

Lemma slice_count_below_5mm_witness :
  slice_count 12 = Ok (3%Z, true)
  ∧ (1 <= 3)%Z ∧ 12 / IZR 3 < 5 ∧ (5 <= 12 → 5 * IZR (3 - 1) < 12).
Proof.
  split; [apply slice_count_12 |].
  apply (slice_count_below_5mm 12 3 slice_count_12).
Defined.

(** The number of slices of a runoff that is a multiple of 5 mm is not an
    integer of Python. *)
Lemma slice_count_multiple (k : Z) :
  (1 <= k)%Z → slice_count (5 * IZR k) = Ok (k, false).
Proof.
  intros Hk. apply IZR_le in Hk as HkR. unfold slice_count.
  rewrite (bool_decide_eq_false_2 (5 * IZR k < 5)) by lra.
  unfold float_mod. rewrite (bool_decide_eq_false_2 (5 = 0)) by lra.
  cbn [mbind res_bind]. rewrite (div_Ok _ 5) by lra. cbn [mbind res_bind].
  assert (Hq : 5 * IZR k / 5 = IZR k) by (field; lra).
  rewrite Hq. rewrite (Int_part_IZR k (IZR k)) by done.
  rewrite (bool_decide_eq_false_2 (5 * IZR k - 5 * IZR k ≠ 0)) by lra.
  unfold py_int. rewrite bool_decide_eq_true_2 by lra.
  by rewrite (Int_part_IZR k (IZR k)).
Qed.

(** The values of the conversion for a positive [time_interval_hours] and
    valid daily coefficients. *)
Lemma period_coefficients_values (ki kg : R) (time_interval_hours : Z) :
  (0 < time_interval_hours)%Z → 0 < ki → 0 <= kg → ki + kg < 1 →
  ∃ kss_period kg_period : R,
    period_coefficients ki kg time_interval_hours
      = Ok (kss_period, kg_period)
    ∧ 0 < kss_period ∧ 0 <= kg_period
    ∧ 0 < 1 - (kss_period + kg_period) < 1.
Proof.
  intros Ht Hki Hkg Hsum.
  pose proof (period_num_1d_covers _ Ht) as Hcover.
  assert (Hn : (1 <= period_num_1d time_interval_hours)%Z) by nia.
  unfold period_coefficients, int_mod.
  rewrite (bool_decide_eq_false_2 (time_interval_hours = 0%Z)) by lia.
  cbn [mbind res_bind].
  rewrite (div_Ok (IZR 24) (IZR time_interval_hours))
    by (apply not_0_IZR; lia).
  cbn [mbind res_bind]. fold (period_num_1d time_interval_hours).
  remember (IZR (period_num_1d time_interval_hours)) as n eqn:Hndef.
  assert (HnR : 1 <= n) by (subst n; by apply IZR_le).
  rewrite (div_Ok 1 n) by lra. cbn [mbind res_bind].
  rewrite power_pos by lra. cbn [mbind res_bind].
  assert (Hg : 0 <= kg / ki) by (apply quot_ge; lra).
  rewrite (div_Ok kg ki) by lra. cbn [mbind res_bind].
  rewrite (div_Ok _ (1 + kg / ki)) by lra. cbn [mbind res_bind].
  rewrite (div_Ok _ ki) by lra. cbn [mbind res_bind].
  remember (Rpower (1 - (ki + kg)) (1 / n)) as p eqn:Hpdef.
  assert (Hp0 : 0 < p) by (subst p; apply Rpower_gt_0).
  assert (Hp1 : p < 1).
  { assert (p <= 1) by (subst p; apply Rpower_le_1;
                         [lra | apply quot_ge; lra]).
    assert (p ≠ 1).
    { subst p. apply Rpower_neq_1; [lra |].
      unfold Rdiv. rewrite Rmult_1_l. apply Rinv_neq_0_compat. lra. }
    lra. }
  assert (Hkss : 0 < (1 - p) / (1 + kg / ki))
    by (apply Rdiv_lt_0_compat; lra).
  assert (Hsumc : (1 - p) / (1 + kg / ki)
                  + (1 - p) / (1 + kg / ki) * kg / ki = 1 - p)
    by (field; split; [lra |]; lra).
  eexists _, _. split; [reflexivity |].
  split; [done |]. split.
  { apply quot_ge; [done |]. rewrite Rmult_0_l.
    apply Rmult_le_pos; lra. }
  rewrite Hsumc. lra.
Qed.

(** X8: with valid coefficients and a positive [time_interval_hours], a
    runoff that is a positive multiple of 5 mm makes the sub-stepped
    partitioner raise a [TypeError]: the remainder [runoff % 5] stays a
    float, so does [n], and [range(n)] rejects it. *)
Theorem sources5mm_multiple_of_5_raises (pe sm ex ki kg : R)
    (s0 fr0 : option R) (time_interval_hours k : Z) (book : string) :
  (0 < time_interval_hours)%Z → 0 < ki → 0 <= kg → ki + kg < 1 →
  (1 <= k)%Z →
  sources5mm pe (5 * IZR k) sm ex ki kg s0 fr0 time_interval_hours book
    = Raise TypeError.
Proof.
  intros Ht Hki Hkg Hsum Hk. apply IZR_le in Hk as HkR.
  destruct (period_coefficients_values ki kg _ Ht Hki Hkg Hsum)
    as (kss & kgp & Hpc & Hkss & Hkgp & Hrest).
  unfold sources5mm. rewrite Hpc. cbn [mbind res_bind].
  assert (∃ fr, (if bool_decide (pe > 1e-5) then div (5 * IZR k) pe
                 else Ok (or_default fr0 0.02)) = Ok fr) as [fr ->].
  { case_bool_decide; [rewrite div_Ok by lra |]; by eexists. }
  cbn [mbind res_bind]. rewrite slice_count_multiple by done.
  cbn [mbind res_bind].
  rewrite (div_Ok (5 * IZR k) (IZR k)), (div_Ok pe (IZR k)),
    (div_Ok 1 (IZR k)) by lra.
  cbn [mbind res_bind]. rewrite power_pos by lra. cbn [mbind res_bind].
  assert (Hg : 0 <= kgp / kss) by (apply quot_ge; lra).
  rewrite (div_Ok kgp kss) by lra. cbn [mbind res_bind].
  rewrite (div_Ok _ (1 + kgp / kss)) by lra. cbn [mbind res_bind].
  by rewrite (div_Ok _ kss) by lra.
Qed.

Lemma sources5mm_multiple_of_5_raises_witness :
  (0 < 24)%Z ∧ 0 < 0.3 ∧ 0 <= 0.35 ∧ 0.3 + 0.35 < 1 ∧ (1 <= 2)%Z ∧
  sources5mm 12 (5 * IZR 2) 35 1.2 0.3 0.35 None None 24 "ShuiWenYuBao"
    = Raise TypeError.
Proof.
  split; [lia |]. do 3 (split; [lra |]). split; [lia |].
  apply (sources5mm_multiple_of_5_raises 12 35 1.2 0.3 0.35 None None 24 2
           "ShuiWenYuBao"); (lia || lra).
Defined.

(** A power of a non-negative base at a positive exponent returns a
    non-negative value. *)
Lemma power_nonneg_Ok (x y : R) :
  0 <= x → 0 < y → ∃ q : R, power x y = Ok q ∧ 0 <= q.
Proof.
  intros [Hx | <-] Hy.
  - exists (Rpower x y). rewrite power_pos by done.
    split; [done |]. left. apply Rpower_gt_0.
  - exists 0. rewrite power_zero by done. split; [done | lra].
Qed.

(** A power of a base within [[0, 1)] at a positive exponent returns
    within [[0, 1)]. *)
Lemma power_below_1 (x y : R) :
  0 <= x < 1 → 0 < y → ∃ q : R, power x y = Ok q ∧ 0 <= q < 1.
Proof.
  intros [[Hx | <-] Hx1] Hy.
  - exists (Rpower x y). rewrite power_pos by done. split; [done |].
    assert (Rpower x y <= 1) by (apply Rpower_le_1; lra).
    assert (Rpower x y ≠ 1) by (apply Rpower_neq_1; lra).
    pose proof (Rpower_gt_0 x y). lra.
  - exists 0. rewrite power_zero by done. split; [done | lra].
Qed.

(** The slice update returns, with the area fraction it was given, as soon
    as the tank parameters are valid and the area fraction lies within
    [(0, 1]]. *)
Lemma slice_update_total (book : string)
    (sm ex pen rn kss_d kg_d fr_d fr0_d s0_d : R) :
  0 < sm → 0 < ex → 0 < fr_d <= 1 →
  ∃ (out : R * R * R) (s_d : R),
    slice_update book sm ex (sm * (1 + ex)) pen rn kss_d kg_d fr_d fr0_d s0_d
      = Ok (out, (fr_d, s_d)).
Proof.
  intros Hsm Hex Hfr.
  assert (Hms : 0 < sm * (1 + ex)) by nra.
  assert (Hk : 0 < 1 / (1 + ex)) by (apply Rdiv_lt_0_compat; lra).
  unfold slice_update.
  rewrite (div_Ok (fr0_d * s0_d) fr_d) by lra. cbn [mbind res_bind].
  remember (fr0_d * s0_d / fr_d) as t eqn:Htdef.
  case_bool_decide as Hbook.
  - (* ShuiWenYuBao *)
    remember (if bool_decide (t > sm) then sm else t) as s_d eqn:Hsd.
    assert (Hs : s_d <= sm) by (subst s_d; case_bool_decide; lra).
    clear Hsd.
    rewrite (div_Ok s_d sm), (div_Ok 1 (1 + ex)) by lra.
    cbn [mbind res_bind].
    destruct (power_nonneg_Ok (1 - s_d / sm) (1 / (1 + ex)))
      as (q & -> & Hq); [| done |].
    { assert (s_d / sm <= 1) by (apply quot_le; lra). lra. }
    cbn [mbind res_bind]. remember (sm * (1 + ex)) as ms eqn:Hmsdef.
    case_bool_decide as Hbr; cbn [mbind res_bind].
    + rewrite (div_Ok _ fr_d) by lra. by eexists _, _.
    + rewrite (div_Ok _ ms) by lra. cbn [mbind res_bind].
      rewrite power_pos.
      * cbn [mbind res_bind]. rewrite (div_Ok _ fr_d) by lra.
        by eexists _, _.
      * assert ((pen + ms * (1 - q)) / ms < 1) by (apply quot_lt; lra).
        lra.
  - (* the other book *)
    assert (Hkex : 0 < 1 / ex) by (apply Rdiv_lt_0_compat; lra).
    rewrite (div_Ok 1 ex) by lra. cbn [mbind res_bind].
    destruct (power_below_1 (1 - fr_d) (1 / ex)) as (p & -> & Hp);
      [lra | done |].
    cbn [mbind res_bind].
    remember (sm * (1 + ex) * (1 - p)) as smmf eqn:Hsmmf.
    assert (Hsmmf0 : 0 < smmf) by (subst smmf; apply Rmult_lt_0_compat; lra).
    rewrite (div_Ok smmf (1 + ex)) by lra. cbn [mbind res_bind].
    remember (smmf / (1 + ex)) as smf eqn:Hsmf.
    assert (Hsmf0 : 0 < smf) by (subst smf; apply Rdiv_lt_0_compat; lra).
    remember (if bool_decide (t > smf) then smf else t) as s_d eqn:Hsd.
    assert (Hs : s_d <= smf) by (subst s_d; case_bool_decide; lra).
    clear Hsd.
    rewrite (div_Ok s_d smf), (div_Ok 1 (1 + ex)) by lra.
    cbn [mbind res_bind].
    destruct (power_nonneg_Ok (1 - s_d / smf) (1 / (1 + ex)))
      as (q & -> & Hq); [| done |].
    { assert (s_d / smf <= 1) by (apply quot_le; lra). lra. }
    cbn [mbind res_bind].
    case_bool_decide as Hbr; cbn [mbind res_bind].
    + rewrite (div_Ok _ fr_d) by lra. by eexists _, _.
    + rewrite (div_Ok _ smmf) by lra. cbn [mbind res_bind].
      rewrite power_pos.
      * cbn [mbind res_bind].
        repeat (rewrite (div_Ok _ fr_d) by lra; cbn [mbind res_bind]).
        by eexists _, _.
      * assert ((pen + smmf * (1 - q)) / smmf < 1) by (apply quot_lt; lra).
        lra.
Qed.

(** The body of the loop returns, and its area fraction lies within
    [(0, 1]] and is the same for every slice. *)
Lemma sources5mm_slice_total (book : string) (sm ex fr : R) (n : Z)
    (pen rn kss_d kg_d : R) :
  0 < sm → 0 < ex → 0 < fr <= 1 → (1 <= n)%Z →
  ∃ fr_d : R,
    0 < fr_d <= 1
    ∧ ∀ fr0_d s0_d : R,
        ∃ (out : R * R * R) (s_d : R),
          sources5mm_slice book sm ex (sm * (1 + ex)) fr n pen rn kss_d kg_d
            fr0_d s0_d = Ok (out, (fr_d, s_d)).
Proof.
  intros Hsm Hex Hfr Hn. apply IZR_le in Hn as HnR.
  assert (Hk : 0 < 1 / IZR n) by (apply Rdiv_lt_0_compat; lra).
  destruct (power_below_1 (1 - fr) (1 / IZR n)) as (p & Hp & Hp01);
    [lra | done |].
  exists (1 - p). split; [lra |]. intros fr0_d s0_d.
  unfold sources5mm_slice. rewrite (div_Ok 1 (IZR n)) by lra.
  cbn [mbind res_bind]. rewrite Hp. cbn [mbind res_bind].
  apply slice_update_total; lra.
Qed.

(** Away from the positive multiples of 5 mm the number of slices is an
    [int], at least 1. *)
Lemma slice_count_int (runoff : R) :
  runoff < 5 ∨ (∀ k : Z, runoff ≠ 5 * IZR k) →
  ∃ n : Z, slice_count runoff = Ok (n, true) ∧ (1 <= n)%Z.
Proof.
  intros Hrun. unfold slice_count. case_bool_decide as Hlt.
  { exists 1%Z. split; [done | lia]. }
  destruct Hrun as [? | Hrun]; [lra |].
  unfold float_mod. rewrite (bool_decide_eq_false_2 (5 = 0)) by lra.
  cbn [mbind res_bind]. rewrite (div_Ok runoff 5) by lra.
  cbn [mbind res_bind].
  rewrite (bool_decide_eq_true_2
             (runoff - 5 * IZR (Int_part (runoff / 5)) ≠ 0)).
  - eexists. split; [reflexivity |].
    assert (H1 : 1 <= runoff / 5) by lra.
    unfold py_int. rewrite bool_decide_eq_true_2 by lra.
    pose proof (Int_part_ge_1 _ H1). lia.
  - intros Heq. apply (Hrun (Int_part (runoff / 5))). lra.
Qed.

(** The loop over the slices returns whenever its body does; the history
    lists grow by one entry per slice, and the last area fraction is the
    one of the slices. *)
Lemma sources5mm_loop_total (slice : R → R → res ((R * R * R) * (R * R)))
    (fr_d : R) :
  (∀ fr0_d s0_d : R,
     ∃ (out : R * R * R) (s_d : R), slice fr0_d s0_d = Ok (out, (fr_d, s_d))) →
  ∀ (m k : nat) (tot : R * R * R) (s_ds fr_ds : list R),
    length s_ds = S k → length fr_ds = S k →
    ∃ (tot' : R * R * R) (s_ds' fr_ds' : list R),
      sources5mm_loop slice (seq k m) tot s_ds fr_ds
        = Ok (tot', (s_ds', fr_ds'))
      ∧ length s_ds' = S (k + m)
      ∧ length fr_ds' = S (k + m)
      ∧ ((0 < m)%nat → last fr_ds' = Some fr_d).
Proof.
  intros Hslice m.
  induction m as [| m IH]; intros k tot s_ds fr_ds Hls Hlf.
  - exists tot, s_ds, fr_ds. cbn [seq sources5mm_loop].
    rewrite Nat.add_0_r. split; [done |]. do 2 (split; [done |]). lia.
  - cbn [seq sources5mm_loop]. unfold getitem_list.
    destruct (lookup_lt_is_Some_2 fr_ds k) as [a ->]; [lia |].
    destruct (lookup_lt_is_Some_2 s_ds k) as [b ->]; [lia |].
    cbn [mbind res_bind].
    destruct (Hslice a b) as ([[rs_j rss_j] rg_j] & s_d & ->).
    cbn [mbind res_bind]. destruct tot as [[rs rss] rg].
    destruct (IH (S k) (rs + rs_j, rss + rss_j, rg + rg_j)
                (s_ds ++ [s_d]) (fr_ds ++ [fr_d]))
      as (tot' & s_ds' & fr_ds' & Hloop & Hls' & Hlf' & Hlast).
    { rewrite length_app. cbn. lia. }
    { rewrite length_app. cbn. lia. }
    exists tot', s_ds', fr_ds'. split; [done |].
    split; [lia |]. split; [lia |]. intros _.
    destruct m as [| m'].
    + cbn [seq sources5mm_loop] in Hloop.
      injection Hloop as _ _ <-. apply last_snoc.
    + apply Hlast. lia.
Qed.

(** X9: with valid parameters ([0 < sm], [0 < ex], [0 < ki], [0 <= kg],
    [ki + kg < 1], a positive [time_interval_hours]) the sub-stepped
    partitioner returns, by the formulation of either book and for any
    stored state, whenever the runoff is below 5 mm or not a multiple of
    5 mm; the area fraction it hands to the next time step lies within
    [(0, 1]]. *)
Theorem sources5mm_returns (pe runoff sm ex ki kg : R) (s0 fr0 : option R)
    (time_interval_hours : Z) (book : string) :
  (0 < time_interval_hours)%Z → 0 < ki → 0 <= kg → ki + kg < 1 →
  0 < sm → 0 < ex →
  runoff < 5 ∨ (∀ k : Z, runoff ≠ 5 * IZR k) →
  ∃ (out : R * R * R) (fr_d s_d : R),
    sources5mm pe runoff sm ex ki kg s0 fr0 time_interval_hours book
      = Ok (out, (fr_d, s_d))
    ∧ 0 < fr_d <= 1.
Proof.
  intros Ht Hki Hkg Hsum Hsm Hex Hrun.
  destruct (period_coefficients_values ki kg _ Ht Hki Hkg Hsum)
    as (kss & kgp & Hpc & Hkss & Hkgp & Hrest).
  destruct (slice_count_int runoff Hrun) as (n & Hn & Hn1).
  apply IZR_le in Hn1 as HnR.
  unfold sources5mm. rewrite Hpc. cbn [mbind res_bind].
  assert (∃ fr, (if bool_decide (pe > 1e-5) then div runoff pe
                 else Ok (or_default fr0 0.02)) = Ok fr) as [fr ->].
  { case_bool_decide; [rewrite div_Ok by lra |]; by eexists. }
  cbn [mbind res_bind]. rewrite Hn. cbn [mbind res_bind].
  rewrite (div_Ok runoff (IZR n)), (div_Ok pe (IZR n)),
    (div_Ok 1 (IZR n)) by lra.
  cbn [mbind res_bind]. rewrite power_pos by lra. cbn [mbind res_bind].
  assert (Hg : 0 <= kgp / kss) by (apply quot_ge; lra).
  rewrite (div_Ok kgp kss) by lra. cbn [mbind res_bind].
  rewrite (div_Ok _ (1 + kgp / kss)) by lra. cbn [mbind res_bind].
  rewrite (div_Ok _ kss) by lra. cbn [mbind res_bind].
  pose proof (np_clip_bounds fr 0.001 1 ltac:(lra)) as Hclip.
  destruct (sources5mm_slice_total book sm ex (np_clip fr 0.001 1) n
              (pe / IZR n) (runoff / IZR n)
              ((1 - Rpower (1 - (kss + kgp)) (1 / IZR n)) / (1 + kgp / kss))
              ((1 - Rpower (1 - (kss + kgp)) (1 / IZR n)) / (1 + kgp / kss)
               * kgp / kss))
    as (fr_d & Hfrd & Hslice); [done | done | lra | done |].
  destruct (sources5mm_loop_total _ fr_d Hslice (Z.to_nat n) 0 (0, 0, 0)
              [or_default s0 (0.60 * sm)] [or_default fr0 0.02])
    as (tot' & s_ds' & fr_ds' & -> & Hls & Hlf & Hlast); [done | done |].
  cbn [mbind res_bind]. unfold last_item.
  rewrite Hlast by lia. cbn [mbind res_bind].
  destruct (last s_ds') as [s_last |] eqn:Hs.
  - cbn [mbind res_bind]. by exists tot', fr_d, s_last.
  - apply last_None in Hs. subst s_ds'. cbn in Hls. lia.
Qed.

Lemma sources5mm_returns_witness :
  ∃ (out : R * R * R) (fr_d s_d : R),
    sources5mm 12 12 35 1.2 0.3 0.35 None None 24 "GongChengShuiWenXue"
      = Ok (out, (fr_d, s_d))
    ∧ 0 < fr_d <= 1.
Proof.
  apply (sources5mm_returns 12 12 35 1.2 0.3 0.35 None None 24
           "GongChengShuiWenXue"); try lra; try lia.
  right. intros k Hk.
  assert (H : IZR 12 = IZR (5 * k)) by (rewrite mult_IZR; lra).
  apply eq_IZR in H. lia.
Defined.

(** ** The loops of the driver *)

(** The first loop over a forcing in two parts is the loop over the first
    part followed, from the state it reaches, by the loop over the
    second. *)
Lemma xaj_runoff_loop_app (um lm dm c b im sm ex ki kg : R)
    (source_type source_book : string) (p p' : list (R * R)) :
  ∀ (w : option R * option R * option R) (S : option R * option R)
    (out : list R * list R * list R * list R),
    xaj_runoff_loop um lm dm c b im sm ex ki kg source_type source_book
      (p ++ p') w S out
    = ('(out1, (w1, S1)) ←
         xaj_runoff_loop um lm dm c b im sm ex ki kg source_type source_book
           p w S out;
       xaj_runoff_loop um lm dm c b im sm ex ki kg source_type source_book
         p' w1 S1 out1).
Proof.
  induction p as [| x p IH]; intros w S out; [done |].
  cbn [app xaj_runoff_loop]. destruct w as [[wu0 wl0] wd0].
  destruct (generation x um lm dm c b im wu0 wl0 wd0)
    as [[[[[r rim] e] pe] [[wu wl] wd]] | err]; [| done].
  cbn [mbind res_bind].
  destruct (if bool_decide (source_type = "sources")
            then sources pe r sm ex ki kg S.1 S.2
            else if bool_decide (source_type = "sources5mm")
                 then sources5mm pe r sm ex ki kg S.1 S.2 24 source_book
                 else Raise NotImplementedError)
    as [[[[rs ri] rg] [S_0 S_1]] | err]; [| done].
  cbn [mbind res_bind]. destruct out as [[[runoff_ims_ rss_] ris_] rgs_].
  apply IH.
Qed.

(** The first loop appends one entry per time step to each of its four
    lists. *)
Lemma xaj_runoff_loop_extends (um lm dm c b im sm ex ki kg : R)
    (source_type source_book : string) (p : list (R * R)) :
  ∀ (w : option R * option R * option R) (S : option R * option R)
    (a0 b0 c0 d0 a1 b1 c1 d1 : list R)
    (st : (option R * option R * option R) * (option R * option R)),
    xaj_runoff_loop um lm dm c b im sm ex ki kg source_type source_book
      p w S (a0, b0, c0, d0) = Ok ((a1, b1, c1, d1), st) →
    ∃ a b' c' d : list R,
      a1 = a0 ++ a ∧ b1 = b0 ++ b' ∧ c1 = c0 ++ c' ∧ d1 = d0 ++ d
      ∧ length a = length p ∧ length b' = length p
      ∧ length c' = length p ∧ length d = length p.
Proof.
  induction p as [| x p IH]; intros w S a0 b0 c0 d0 a1 b1 c1 d1 st H.
  - cbn in H. injection H as <- <- <- <- _.
    exists [], [], [], []. by rewrite !app_nil_r.
  - cbn [xaj_runoff_loop] in H. destruct w as [[wu0 wl0] wd0].
    apply bind_Ok_inv in H as ([[[[r rim] e] pe] [[wu wl] wd]] & _ & H).
    apply bind_Ok_inv in H as ([[[rs ri] rg] [S_0 S_1]] & _ & H).
    apply IH in H as (a & b' & c' & d & -> & -> & -> & -> & Ha & Hb & Hc & Hd).
    exists (rim :: a), (rs :: b'), (ri :: c'), (rg :: d).
    rewrite <- !app_assoc. cbn [app length].
    repeat split; congruence.
Qed.

(** The second loop over steps in two parts is the loop over the first
    part followed, from the discharges it reaches, by the loop over the
    second; the first part appends one discharge per step. *)
Lemma xaj_route_loop_app (method : route_method) (ci cg : R)
    (qs0 qi0 qg0 : option R) (rss_route qs_ ris_ rgs_ : list R)
    (steps steps' : list nat) :
  ∀ (prev : option (R * R * R)) (Qs Q : list R),
    xaj_route_loop method ci cg qs0 qi0 qg0 rss_route qs_ ris_ rgs_
      (steps ++ steps') prev Qs = Ok Q →
    ∃ (prev1 : option (R * R * R)) (Q1 : list R),
      xaj_route_loop method ci cg qs0 qi0 qg0 rss_route qs_ ris_ rgs_
        steps prev Qs = Ok (Qs ++ Q1)
      ∧ length Q1 = length steps
      ∧ xaj_route_loop method ci cg qs0 qi0 qg0 rss_route qs_ ris_ rgs_
          steps' prev1 (Qs ++ Q1) = Ok Q.
Proof.
  induction steps as [| i steps IH]; intros prev Qs Q H.
  - exists prev, []. cbn [xaj_route_loop]. by rewrite app_nil_r.
  - cbn [app xaj_route_loop] in H |- *.
    apply bind_Ok_inv in H as ([[qs qi] qg] & -> & H).
    cbn [mbind res_bind].
    apply IH in H as (prev1 & Q1 & H1 & Hlen & H2).
    exists prev1, ((qs + qi + qg) :: Q1).
    rewrite <- app_assoc in H1, H2. cbn [app] in H1, H2.
    split; [done |]. split; [cbn; lia | done].
Qed.

(** The second loop reads its four series only at the steps it runs
    over. *)
Lemma xaj_route_loop_reads (method : route_method) (ci cg : R)
    (qs0 qi0 qg0 : option R)
    (rss_route qs_ ris_ rgs_ rss_route' qs_' ris_' rgs_' : list R)
    (steps : list nat) :
  (∀ i : nat, i ∈ steps →
     rss_route !! i = rss_route' !! i ∧ qs_ !! i = qs_' !! i
     ∧ ris_ !! i = ris_' !! i ∧ rgs_ !! i = rgs_' !! i) →
  ∀ (prev : option (R * R * R)) (Qs : list R),
    xaj_route_loop method ci cg qs0 qi0 qg0 rss_route qs_ ris_ rgs_
      steps prev Qs
    = xaj_route_loop method ci cg qs0 qi0 qg0 rss_route' qs_' ris_' rgs_'
        steps prev Qs.
Proof.
  induction steps as [| i steps IH]; intros Hsame prev Qs; [done |].
  cbn [xaj_route_loop]. unfold getitem_list.
  destruct (Hsame i) as (-> & -> & -> & ->); [by apply elem_of_cons; left |].
  apply bind_ext. intros [[qs qi] qg]. apply IH.
  intros j Hj. apply Hsame. apply elem_of_cons. by right.
Qed.

(** An entry of the full convolution within the length of the series. *)
Lemma convolve_lookup (xs ks : list R) (n : nat) :
  (n < length xs + length ks - 1)%nat →
  convolve xs ks !! n
  = Some (foldr Rplus 0
            (map (fun k : nat =>
                    match xs !! (n - k)%nat, ks !! k with
                    | Some x, Some h => x * h
                    | _, _ => 0
                    end) (seq 0 (S n)))).
Proof.
  intros Hn. unfold convolve. rewrite list_lookup_fmap.
  by rewrite lookup_seq_lt by done.
Qed.

(** The convolution does not look ahead: an entry within the length of the
    series so far is not changed by what is appended to the series. *)
Lemma convolve_prefix (xs ys ks : list R) (n : nat) :
  (n < length xs)%nat → ks ≠ [] →
  convolve (xs ++ ys) ks !! n = convolve xs ks !! n.
Proof.
  intros Hn Hks.
  assert (0 < length ks)%nat by (destruct ks; [done | cbn; lia]).
  rewrite !convolve_lookup by (rewrite ?length_app; lia).
  f_equal. f_equal. apply map_ext_in. intros k _.
  by rewrite lookup_app_l by lia.
Qed.

Lemma foldr_Rplus_zero {A : Type} (f : A → R) (l : list A) :
  (∀ a : A, a ∈ l → f a = 0) → foldr Rplus 0 (map f l) = 0.
Proof.
  induction l as [| a l IH]; intros Hf; [done |].
  cbn [map foldr]. rewrite (Hf a) by (apply elem_of_cons; by left).
  rewrite IH; [lra |]. intros a' Ha'. apply Hf, elem_of_cons. by right.
Qed.

(** The kernel with the single ordinate 1 leaves a series as it is. *)
Lemma convolve_unit (xs : list R) : convolve xs [1] = xs.
Proof.
  apply list_eq. intros n.
  destruct (decide (n < length xs)%nat) as [Hn | Hn].
  - rewrite convolve_lookup by (cbn [length]; lia).
    destruct (lookup_lt_is_Some_2 xs n Hn) as [x Hx]. rewrite Hx. f_equal.
    cbn [seq map foldr]. rewrite Nat.sub_0_r, Hx. cbn [lookup list_lookup].
    rewrite foldr_Rplus_zero; [lra |].
    intros k Hk. apply elem_of_seq in Hk.
    destruct k as [| k]; [lia |]. by destruct (xs !! (n - S k)%nat).
  - rewrite (lookup_ge_None_2 xs n) by lia.
    apply lookup_ge_None_2. unfold convolve.
    rewrite length_map, length_seq. cbn [length]. lia.
Qed.

(** With the recession coefficient 0 the linear reservoir passes its
    inflow on, as the unit hydrograph does with a series that is already
    convolved. *)
Lemma xaj_route_loop_pass_through (ci cg : R) (qs0 qi0 qg0 : option R)
    (UH rss_route ris_ rgs_ : list R) (steps : list nat) :
  ∀ (prev : option (R * R * R)) (Qs : list R),
    xaj_route_loop (LinearReservoir 0) ci cg qs0 qi0 qg0 rss_route [] ris_
      rgs_ steps prev Qs
    = xaj_route_loop (UnitHydrograph UH) ci cg qs0 qi0 qg0 rss_route
        rss_route ris_ rgs_ steps prev Qs.
Proof.
  induction steps as [| i steps IH]; intros prev Qs; [done |].
  cbn [xaj_route_loop].
  destruct prev as [[[qs qi] qg] |];
    (destruct (getitem_list rss_route i) as [x | err]; [| done]);
    cbn [mbind res_bind];
    (destruct (getitem_list ris_ i) as [ri | err]; [| done]);
    cbn [mbind res_bind];
    (destruct (getitem_list rgs_ i) as [rg | err]; [| done]);
    cbn [mbind res_bind].
  - replace (x * (1 - 0) + qs * 0) with x by lra. apply IH.
  - replace (x * (1 - 0) + or_default qs0 0.01 * 0) with x by lra. apply IH.
Qed.

(** In the unit-hydrograph mode the second loop does not use the initial
    surface discharge. *)
Lemma xaj_route_loop_uh_qs0 (UH : list R) (ci cg : R)
    (qs0 qs0' qi0 qg0 : option R) (rss_route qs_ ris_ rgs_ : list R)
    (steps : list nat) :
  ∀ (prev : option (R * R * R)) (Qs : list R),
    xaj_route_loop (UnitHydrograph UH) ci cg qs0 qi0 qg0 rss_route qs_ ris_
      rgs_ steps prev Qs
    = xaj_route_loop (UnitHydrograph UH) ci cg qs0' qi0 qg0 rss_route qs_
        ris_ rgs_ steps prev Qs.
Proof.
  induction steps as [| i steps IH]; intros prev Qs; [done |].
  cbn [xaj_route_loop]. apply bind_ext. intros [[qs qi] qg]. apply IH.
Qed.

Lemma foldr_Rplus_acc (l : list R) (acc : R) :
  foldr Rplus acc l = foldr Rplus 0 l + acc.
Proof.
  induction l as [| y l IH]; cbn [foldr]; [lra |]. rewrite IH. lra.
Qed.

(** Differences of consecutive values of a function add up to the
    difference of the last and the first value. *)
Lemma telescope (f : Z → R) (n : nat) :
  foldr Rplus 0
    (map (fun t : nat => f (Z.of_nat t) - f (Z.of_nat t - 1)%Z) (seq 1 n))
  = f (Z.of_nat n) - f 0%Z.
Proof.
  induction n as [| n IH]; [change (0 = f 0%Z - f 0%Z); lra |].
  rewrite seq_S, map_app, foldr_app. cbn [map foldr].
  rewrite foldr_Rplus_acc, IH.
  replace (Z.of_nat (1 + n) - 1)%Z with (Z.of_nat n) by lia.
  change (1 + n)%nat with (S n). lra.
Qed.

(** A run of two time steps on saturated soil with a full tank, in the
    linear-reservoir mode. *)
Lemma xaj_saturated_run (s_curves2 : Z → R → R) :
  xaj s_curves2 ([(4, 0)] ++ [(4, 0)]) interflow_params
    (Some saturated_states) None "sources5mm" "ShuiWenYuBao"
  = Ok [5.2395; -5.161275].
Proof.
  rewrite (xaj_read_params _ _ _ _ _ _ _
             0.3 0.02 20 80 60 0.15 10 1 0.5 0.1 0.7 0.95)
    by (by repeat split).
  assert (Hcs : getitem interflow_params "CS" = Ok 0.1) by reflexivity.
  assert (Hst : initial_states (Some saturated_states)
                = Ok (Some 20, Some 80, Some 60, Some 10, Some 1,
                      Some 0.01, Some 0.01, Some 0.01)) by reflexivity.
  rewrite Hcs, Hst. cbn [app mbind res_bind xaj_runoff_loop].
  rewrite generation_saturated. cbn [mbind res_bind fst snd].
  rewrite (bool_decide_eq_false_2 ("sources5mm" = "sources")) by done.
  rewrite (bool_decide_eq_true_2 ("sources5mm" = "sources5mm")) by done.
  rewrite sources5mm_full_tank. cbn [mbind res_bind fst snd app].
  rewrite generation_saturated. cbn [mbind res_bind fst snd].
  rewrite sources5mm_negative_tank. cbn [mbind res_bind fst snd app].
  rewrite (bool_decide_eq_false_2 ([0.08; 0.08] = [])) by done.
  cbn. repeat f_equal; lra.
Qed.

Section DriverFurther.

Variable s_curves2 : Z → R → R.

(** X10: on an empty forcing the driver returns no output, whatever its
    other arguments; when its parameters and initial states can be read it
    raises the [ValueError] of [np.stack] on an empty list. *)
Theorem xaj_empty_forcing (params : gmap string R)
    (states : option (gmap string (option R))) (uh : option uh_arg)
    (source_type source_book : string) :
  (∀ Q : list R,
     xaj s_curves2 [] params states uh source_type source_book ≠ Ok Q)
  ∧ (∀ b im um lm dm c sm ex ki kg ci cg : R,
       has_params params b im um lm dm c sm ex ki kg ci cg →
       (uh = None → is_Some (params !! "CS")) →
       (∃ st, initial_states states = Ok st) →
       xaj s_curves2 [] params states uh source_type source_book
         = Raise ValueError).
Proof.
  split.
  - intros Q HQ. unfold xaj in HQ.
    do 13 (apply bind_Ok_inv in HQ as (? & _ & HQ)).
    apply bind_Ok_inv in HQ as (st & _ & HQ).
    destruct st as [[[[[[[wu0 wl0] wd0] s0] fr0] qs0] qi0] qg0].
    cbn in HQ. discriminate.
  - intros b im um lm dm c sm ex ki kg ci cg Hparams Hcs [st Hst].
    rewrite (xaj_read_params _ _ _ _ _ _ _ _ _ _ _ _ _ _ _ _ _ _ _ Hparams).
    destruct uh as [u |].
    + cbn [mbind res_bind]. rewrite Hst. cbn [mbind res_bind].
      by destruct st as [[[[[[[wu0 wl0] wd0] s0] fr0] qs0] qi0] qg0].
    + destruct (Hcs eq_refl) as [cs Hcs'].
      rewrite (getitem_Some _ _ _ Hcs'). cbn [mbind res_bind].
      rewrite Hst. cbn [mbind res_bind].
      by destruct st as [[[[[[[wu0 wl0] wd0] s0] fr0] qs0] qi0] qg0].
Qed.

(** X11: whenever the driver returns, the discharge series has one entry
    per time step of the forcing, in either routing mode. *)
Theorem xaj_output_length (p_and_e : list (R * R)) (params : gmap string R)
    (states : option (gmap string (option R))) (uh : option uh_arg)
    (source_type source_book : string) (Q : list R) :
  xaj s_curves2 p_and_e params states uh source_type source_book = Ok Q →
  length Q = length p_and_e.
Proof.
  intros HQ. unfold xaj in HQ.
  do 13 (apply bind_Ok_inv in HQ as (? & _ & HQ)).
  apply bind_Ok_inv in HQ as (st & _ & HQ).
  destruct st as [[[[[[[wu0 wl0] wd0] s0] fr0] qs0] qi0] qg0].
  apply bind_Ok_inv in HQ as ([[[[a1 b1] c1] d1] st'] & _ & HQ).
  case_bool_decide; [discriminate |].
  rewrite <- (app_nil_r (seq 0 (length p_and_e))) in HQ.
  apply xaj_route_loop_app in HQ as (prev1 & Q1 & _ & Hlen & HQ).
  cbn in HQ. injection HQ as <-. by rewrite Hlen, length_seq.
Qed.

(** X12: with a unit hydrograph the driver reads neither the recession
    coefficient ["CS"], which may be absent, nor the value stored under
    ["QS0"]. *)
Theorem xaj_unit_hydrograph_ignores (p_and_e : list (R * R))
    (params : gmap string R) (d : gmap string (option R)) (u : uh_arg)
    (source_type source_book : string) (cs : R) (qs0 qs0' : option R) :
  xaj s_curves2 p_and_e (<["CS" := cs]> params) (Some (<["QS0" := qs0]> d))
    (Some u) source_type source_book
  = xaj s_curves2 p_and_e (delete "CS" params) (Some (<["QS0" := qs0']> d))
      (Some u) source_type source_book.
Proof.
  unfold xaj, initial_states, getitem.
  rewrite !(lookup_insert_ne params "CS"), !(lookup_delete_ne params "CS")
    by done.
  rewrite !lookup_insert_eq.
  rewrite !(lookup_insert_ne d "QS0") by done.
  do 12 (apply bind_ext; intros ?). cbn [mbind res_bind].
  destruct (d !! "WU0") as [wu0 |]; [| done].
  destruct (d !! "WL0") as [wl0 |]; [| done].
  destruct (d !! "WD0") as [wd0 |]; [| done].
  destruct (d !! "S0") as [s0 |]; [| done].
  destruct (d !! "FR0") as [fr0 |]; [| done].
  destruct (d !! "QI0") as [qi0 |]; [| done].
  destruct (d !! "QG0") as [qg0 |]; [| done].
  cbn [mbind res_bind].
  apply bind_ext. intros [[[[runoff_ims_ rss_] ris_] rgs_] st'].
  case_bool_decide; [done |]. apply xaj_route_loop_uh_qs0.
Qed.

(** X13: the unit hydrograph with the single ordinate 1 routes the surface
    runoff as the linear reservoir with the recession coefficient
    [CS = 0] does: both pass it on unchanged. *)
Theorem xaj_identity_kernel (p_and_e : list (R * R)) (params : gmap string R)
    (states : option (gmap string (option R)))
    (source_type source_book : string) :
  params !! "CS" = Some 0 →
  xaj s_curves2 p_and_e params states None source_type source_book
  = xaj s_curves2 p_and_e params states (Some (UhOrdinates [1])) source_type
      source_book.
Proof.
  intros Hcs. unfold xaj. rewrite (getitem_Some _ _ _ Hcs).
  do 12 (apply bind_ext; intros ?). cbn [mbind res_bind uh_ordinates].
  apply bind_ext. intros [[[[[[[wu0 wl0] wd0] s0] fr0] qs0] qi0] qg0].
  apply bind_ext. intros [[[[runoff_ims_ rss_] ris_] rgs_] st'].
  case_bool_decide; [done |].
  rewrite convolve_unit. apply xaj_route_loop_pass_through.
Qed.

(** X14: the driver does not look ahead.  When it returns on a forcing, it
    returns on every non-empty initial part of it, and with the initial
    part of the discharges: a discharge depends on the forcing up to its
    own time step only (with a unit hydrograph, one that has an
    ordinate). *)
Theorem xaj_causal (p p' : list (R * R)) (params : gmap string R)
    (states : option (gmap string (option R))) (uh : option uh_arg)
    (source_type source_book : string) (Q : list R) :
  p ≠ [] →
  (∀ u : uh_arg, uh = Some u → uh_ordinates s_curves2 u ≠ []) →
  xaj s_curves2 (p ++ p') params states uh source_type source_book = Ok Q →
  xaj s_curves2 p params states uh source_type source_book
    = Ok (take (length p) Q).
Proof.
  intros Hp Huh HQ. unfold xaj in HQ |- *.
  do 12 (apply bind_Ok_inv in HQ as (? & -> & HQ); cbn [mbind res_bind]).
  apply bind_Ok_inv in HQ as (method & Hmethod & HQ).
  rewrite Hmethod. cbn [mbind res_bind].
  apply bind_Ok_inv in HQ as (st & -> & HQ). cbn [mbind res_bind].
  destruct st as [[[[[[[wu0 wl0] wd0] s0] fr0] qs0] qi0] qg0].
  rewrite xaj_runoff_loop_app in HQ.
  apply bind_Ok_inv in HQ as ([[[[af bf] cf] df] st'] & Hrest & HQ).
  apply bind_Ok_inv in Hrest as ([[[[a1 b1] c1] d1] [w1 S1]] & Hloop & Hrest).
  rewrite Hloop. cbn [mbind res_bind].
  apply xaj_runoff_loop_extends in Hloop
    as (a & b' & c' & d & Ha & Hb & Hc & Hd & Hla & Hlb & Hlc & Hld).
  cbn [app] in Ha, Hb, Hc, Hd. subst a1 b1 c1 d1.
  apply xaj_runoff_loop_extends in Hrest
    as (a2 & b2 & c2 & d2 & -> & -> & -> & -> & _).
  assert (Hlen : (0 < length p)%nat) by (destruct p; [done | cbn; lia]).
  rewrite bool_decide_eq_false_2 in HQ
    by (destruct a; [cbn in Hla; lia | done]).
  rewrite bool_decide_eq_false_2
    by (destruct a; [cbn in Hla; lia | done]).
  rewrite length_app, seq_app in HQ.
  apply xaj_route_loop_app in HQ as (prev1 & Q1 & HQ1 & HlQ & HQ2).
  cbn [app] in HQ1, HQ2.
  rewrite <- (app_nil_r (seq (0 + length p) (length p'))) in HQ2.
  apply xaj_route_loop_app in HQ2 as (prev2 & Q2 & HQ2 & _ & HQ3).
  cbn in HQ3. injection HQ3 as <-.
  rewrite length_seq in HlQ.
  rewrite take_app_length' by done.
  rewrite <- HQ1. symmetry. apply xaj_route_loop_reads.
  intros i Hi. apply elem_of_seq in Hi.
  rewrite zip_with_app by congruence.
  assert (Hlz : length (zip_with Rplus a b') = length p)
    by (rewrite length_zip_with; lia).
  rewrite !(lookup_app_l _ _ i) by lia.
  repeat split. destruct method as [cs | UH]; [done |].
  apply convolve_prefix; [lia |].
  destruct uh as [u |]; [| by destruct (getitem params "CS")].
  injection Hmethod as <-. by apply (Huh u).
Qed.

End DriverFurther.

Lemma xaj_empty_forcing_witness :
  has_params example_params 0.3 0.02 20 80 60 0.15 35 1.2 0.3 0.35 0.7 0.95
  ∧ xaj (fun _ _ => 0) [] example_params None None "sources" "ShuiWenYuBao"
    = Raise ValueError.
Proof.
  assert (Hparams : has_params example_params
                      0.3 0.02 20 80 60 0.15 35 1.2 0.3 0.35 0.7 0.95)
    by (by repeat split).
  split; [done |].
  apply (proj2 (xaj_empty_forcing (fun _ _ => 0) example_params None None
                  "sources" "ShuiWenYuBao")
           0.3 0.02 20 80 60 0.15 35 1.2 0.3 0.35 0.7 0.95 Hparams).
  - intros _. by eexists.
  - by eexists.
Defined.

Lemma xaj_output_length_witness :
  length [5.2395; -5.161275] = length ([(4, 0)] ++ [(4, 0)]).
Proof.
  apply (xaj_output_length (fun _ _ => 0) ([(4, 0)] ++ [(4, 0)])
           interflow_params (Some saturated_states) None "sources5mm"
           "ShuiWenYuBao" [5.2395; -5.161275]).
  apply xaj_saturated_run.
Defined.

Lemma xaj_identity_kernel_witness :
  (<["CS" := 0]> example_params : gmap string R) !! "CS" = Some 0
  ∧ xaj (fun _ _ => 0) [(10, 3); (0, 3)] (<["CS" := 0]> example_params)
      None None "sources" "ShuiWenYuBao"
    = xaj (fun _ _ => 0) [(10, 3); (0, 3)] (<["CS" := 0]> example_params)
        None (Some (UhOrdinates [1])) "sources" "ShuiWenYuBao".
Proof.
  split; [done |].
  by apply (xaj_identity_kernel (fun _ _ => 0) [(10, 3); (0, 3)]
              (<["CS" := 0]> example_params) None "sources" "ShuiWenYuBao").
Defined.

Lemma xaj_causal_witness :
  xaj (fun _ _ => 0) [(4, 0)] interflow_params (Some saturated_states) None
    "sources5mm" "ShuiWenYuBao"
  = Ok (take (length [(4, 0)]) [5.2395; -5.161275]).
Proof.
  apply (xaj_causal (fun _ _ => 0) [(4, 0)] [(4, 0)] interflow_params
           (Some saturated_states) None "sources5mm" "ShuiWenYuBao"
           [5.2395; -5.161275]).
  - done.
  - intros u Hu. discriminate.
  - apply xaj_saturated_run.
Defined.

(** X15: on a time step with net rainfall ([1e-5 <= pe]) the standard
    partitioner uses the stored state only through the product
    [fr0 * s0]: two states with the same product give the same result, and
    so does the state with its two entries exchanged, which is how the
    driver hands the pair [(fr, s)] on to [(s0, fr0)]. *)
Theorem sources_state_product (pe r sm ex ki kg s0 fr0 s0' fr0' : R) :
  1e-5 <= pe → fr0 * s0 = fr0' * s0' →
  sources pe r sm ex ki kg (Some s0) (Some fr0)
  = sources pe r sm ex ki kg (Some s0') (Some fr0')
  ∧ sources pe r sm ex ki kg (Some s0) (Some fr0)
    = sources pe r sm ex ki kg (Some fr0) (Some s0).
Proof.
  intros Hpe Hprod. unfold sources. cbn [or_default].
  rewrite (bool_decide_eq_false_2 (pe < 1e-5)) by lra.
  split.
  - by rewrite Hprod.
  - by rewrite (Rmult_comm s0 fr0).
Qed.

Lemma sources_state_product_witness :
  1e-5 <= 7 ∧ 0.5 * 8 = 0.4 * 10
  ∧ sources 7 5 35 1.2 0.3 0.35 (Some 8) (Some 0.5)
    = sources 7 5 35 1.2 0.3 0.35 (Some 10) (Some 0.4)
  ∧ sources 7 5 35 1.2 0.3 0.35 (Some 8) (Some 0.5)
    = sources 7 5 35 1.2 0.3 0.35 (Some 0.5) (Some 8).
Proof.
  split; [lra |]. split; [lra |].
  apply (sources_state_product 7 5 35 1.2 0.3 0.35 8 0.5 10 0.4); lra.
Defined.

(** A fractional power of a negative base is a nan. *)
Lemma power_nan_negative (x y : R) :
  x < 0 → 0 < y < 1 → power_nan x y = Ok None.
Proof.
  intros Hx Hy. unfold power_nan, power.
  rewrite (bool_decide_eq_false_2 (0 < x)) by lra.
  rewrite (bool_decide_eq_false_2 (x = 0)) by lra.
  rewrite bool_decide_eq_false_2; [done |].
  destruct (base_Int_part y) as [Hup Hlow]. intros Heq.
  assert (H1 : (-1 < Int_part y)%Z) by (apply lt_IZR; lra).
  assert (H2 : (Int_part y < 1)%Z) by (apply lt_IZR; lra).
  assert (H0 : Int_part y = 0%Z) by lia.
  rewrite H0 in Heq. lra.
Qed.

(** X17: when the stored free water over the new runoff area,
    [fr0 * s0 / fr] with [fr = r / pe], exceeds the tank capacity [sm],
    the tension curve of equation 2.84 has no value; the standard
    partitioner still returns, with the surface runoff of equation 2.86,
    [rs = fr * (pe + fr0 * s0 / fr - sm)], which is positive, and with the
    full tank [s = sm] before the outflows. *)
Theorem sources_overfull_tank (pe r sm ex ki kg s0 fr0 : R) :
  1e-5 <= pe → 0 < r → 0 < sm → 0 < ex → sm < fr0 * s0 / (r / pe) →
  let fr := r / pe in
  let rs := fr * (pe + fr0 * s0 / fr - sm) in
  let s := sm in
  0 < rs
  ∧ sources pe r sm ex ki kg (Some s0) (Some fr0)
    = Ok ((rs, np_maximum (ki * s * fr) 0, np_maximum (kg * s * fr) 0),
          (fr, s * (1 - ki - kg))).
Proof.
  intros Hpe Hr Hsm Hex Hfull. cbn zeta.
  assert (Hfr : 0 < r / pe) by (apply Rdiv_lt_0_compat; lra).
  remember (r / pe) as fr eqn:Hfrdef.
  remember (fr0 * s0 / fr) as t eqn:Htdef.
  assert (Hrs : 0 < fr * (pe + t - sm)) by (apply Rmult_lt_0_compat; lra).
  split; [done |].
  unfold sources. cbn [or_default].
  rewrite (bool_decide_eq_false_2 (pe < 1e-5)) by lra.
  rewrite (div_Ok r pe) by lra. cbn [mbind res_bind].
  rewrite <- Hfrdef.
  rewrite (div_Ok (fr0 * s0) fr) by lra. cbn [mbind res_bind].
  rewrite <- Htdef.
  rewrite (div_Ok t sm), (div_Ok 1 (1 + ex)) by lra. cbn [mbind res_bind].
  rewrite power_nan_negative.
  - cbn [mbind res_bind].
    rewrite (div_Ok _ fr) by lra. cbn [mbind res_bind].
    assert (Hs : t + (r - fr * (pe + t - sm)) / fr = sm).
    { assert (r = fr * pe) as -> by (subst fr; field; lra). field. lra. }
    rewrite Hs. rewrite (np_maximum_0_id (fr * (pe + t - sm))) by lra.
    reflexivity.
  - assert (Hq : t / sm - 1 = (t - sm) / sm) by (field; lra).
    assert (0 < (t - sm) / sm) by (apply Rdiv_lt_0_compat; lra). lra.
  - split; [apply Rdiv_lt_0_compat; lra |]. apply quot_lt; lra.
Qed.

Lemma sources_overfull_tank_witness :
  1e-5 <= 4 ∧ 0 < 2 ∧ 0 < 10 ∧ 0 < 1 ∧ 10 < 1 * 10 / (2 / 4)
  ∧ 0 < 2 / 4 * (4 + 1 * 10 / (2 / 4) - 10)
  ∧ sources 4 2 10 1 0.5 0.1 (Some 10) (Some 1)
    = Ok ((2 / 4 * (4 + 1 * 10 / (2 / 4) - 10),
           np_maximum (0.5 * 10 * (2 / 4)) 0,
           np_maximum (0.1 * 10 * (2 / 4)) 0),
          (2 / 4, 10 * (1 - 0.5 - 0.1))).
Proof.
  repeat (split; [lra |]).
  apply (sources_overfull_tank 4 2 10 1 0.5 0.1 10 1); lra.
Defined.

Section UnitHydrograph.

Variable s_curves2 : Z → R → R.

(** X16: a unit hydrograph built from the shape parameter has
    [nUH = ceil(2 * uh)] ordinates (none when this is not positive), with
    [2 * uh <= nUH < 2 * uh + 1], and the ordinates add up to the rise of
    the S-curve from 0 to [nUH], whatever the S-curve is. *)
Theorem uh_ordinates_shape (x4 : R) :
  let nUH := math_ceil (2.0 * x4) in
  2.0 * x4 <= IZR nUH < 2.0 * x4 + 1
  ∧ length (uh_ordinates s_curves2 (UhShape x4)) = Z.to_nat nUH
  ∧ foldr Rplus 0 (uh_ordinates s_curves2 (UhShape x4))
    = s_curves2 (Z.max 0 nUH) x4 - s_curves2 0%Z x4.
Proof.
  cbn zeta. split; [| split].
  - unfold math_ceil. rewrite opp_IZR.
    pose proof (base_Int_part (- (2.0 * x4))) as [H1 H2]. lra.
  - cbn [uh_ordinates]. by rewrite length_map, length_seq.
  - cbn [uh_ordinates].
    rewrite (telescope (fun t => s_curves2 t x4)).
    f_equal. f_equal. lia.
Qed.

End UnitHydrograph.
